(** * Nakshatra market analyst: the prediction engine of
      [advanced_nakshatra.py], embedded and verified.

    The development follows [AdvancedNakshatraCalculator] method by method.

    Numbers.  Python [int] is [Z].  Python [float] is read as an exact
    rational ([Q]): decimal literals such as [13.3333] or [365.25] denote
    exactly that rational and [+ - * /] are exact, so binary64 rounding is
    not part of the model.  Rounding moves a computed value by a few units
    in its last place; in this program that shows in four places: [x % 360]
    for a negative [x] of tiny magnitude (Python answers 360.0 itself), the
    0.4/0.3/0.3 blend of volatilities, the running sum behind the average
    volatility, and [bhukti_progress] at a phase that sits on a sub-period
    boundary.  The one place where non-numeric floats matter
    ([get_current_nakshatra], which is fed whatever the caller passes) uses
    [pyfloat], which adds the two infinities and NaN with Python's
    comparison rules.

    Errors.  A Python exception is a [Raise] in the [result] monad.

    Time.  A [datetime] is its number of microseconds since
    0001-01-01 00:00:00; a [timedelta] is a difference of two of them. *)

From Stdlib Require Import ZArith QArith Qround Qminmax List Bool Lia Lqa String Ascii.
From Stdlib Require Import Permutation Sorted.
Import ListNotations.
Open Scope Q_scope.

(* ------------------------------------------------------------------ *)
(** ** Exceptions *)

Inductive exn : Type :=
| ZeroDivisionError
| IndexError
| KeyError
| ValueError.

Inductive result (A : Type) : Type :=
| Ok (a : A)
| Raise (e : exn).

Arguments Ok {A} a.
Arguments Raise {A} e.

Definition bind {A B : Type} (r : result A) (k : A -> result B) : result B :=
  match r with
  | Ok a => k a
  | Raise e => Raise e
  end.

Notation "x <- e ;; k" := (bind e (fun x => k))
  (at level 61, e at next level, right associativity).

(* ------------------------------------------------------------------ *)
(** ** Python arithmetic on rationals *)

Definition Qltb (x y : Q) : bool := negb (Qle_bool y x).

(** [x / y] on floats: raises on a zero divisor. *)
Definition py_div (x y : Q) : result Q :=
  if Qeq_bool y 0 then Raise ZeroDivisionError else Ok (x / y).

(** [x % y] on floats: the result has the sign of the divisor,
    [x - floor(x / y) * y]. *)
Definition py_mod (x y : Q) : result Q :=
  if Qeq_bool y 0 then Raise ZeroDivisionError
  else Ok (x - inject_Z (Qfloor (x / y)) * y).

(** [int(x)]: truncation towards zero. *)
Definition py_int (x : Q) : Z :=
  if Qle_bool 0 x then Qfloor x else Qceiling x.

(** [min(a, b)]: [b] only when it is strictly smaller, else [a]. *)
Definition py_min (a b : Q) : Q := if Qltb b a then b else a.

(** [l[i]]: a negative index counts from the end. *)
Definition py_index {A : Type} (l : list A) (i : Z) : result A :=
  let n := Z.of_nat (List.length l) in
  let j := if (i <? 0)%Z then (i + n)%Z else i in
  if (j <? 0)%Z then Raise IndexError
  else match nth_error l (Z.to_nat j) with
       | Some a => Ok a
       | None => Raise IndexError
       end.

(** [l[:n]] for a non-negative literal [n]. *)
Definition py_take {A : Type} (n : nat) (l : list A) : list A := firstn n l.

(* ------------------------------------------------------------------ *)
(** ** Floats with infinities and NaN *)

Inductive pyfloat : Type :=
| Fin (q : Q)
| PInf
| NInf
| NaN.

(** [x <= y] *)
Definition fle (x y : pyfloat) : bool :=
  match x, y with
  | NaN, _ | _, NaN => false
  | NInf, _ => true
  | _, PInf => true
  | Fin a, Fin b => Qle_bool a b
  | _, _ => false
  end.

(** [x < y] *)
Definition flt (x y : pyfloat) : bool :=
  match x, y with
  | NaN, _ | _, NaN => false
  | PInf, _ => false
  | _, NInf => false
  | Fin a, Fin b => Qltb a b
  | _, _ => true
  end.

(* ------------------------------------------------------------------ *)
(** ** Static tables *)

Inductive Planet : Type :=
| Ketu | Venus | Sun | Moon | Mars | Rahu | Jupiter | Saturn | Mercury.

Inductive Direction : Type :=
| bullish | bearish | neutral | uncertain.

Definition Planet_eqb (a b : Planet) : bool :=
  match a, b with
  | Ketu, Ketu | Venus, Venus | Sun, Sun | Moon, Moon | Mars, Mars
  | Rahu, Rahu | Jupiter, Jupiter | Saturn, Saturn | Mercury, Mercury => true
  | _, _ => false
  end.

Definition Direction_eqb (a b : Direction) : bool :=
  match a, b with
  | bullish, bullish | bearish, bearish
  | neutral, neutral | uncertain, uncertain => true
  | _, _ => false
  end.

Definition Direction_name (d : Direction) : string :=
  match d with
  | bullish => "bullish" | bearish => "bearish"
  | neutral => "neutral" | uncertain => "uncertain"
  end%string.

Record Nakshatra : Type := mkNakshatra {
  name : string;
  lord : Planet;
  range : Q * Q
}.

Definition nakshatras : list Nakshatra := [
  mkNakshatra "Ashwini" Ketu (0, 13.3333);
  mkNakshatra "Bharani" Venus (13.3333, 26.6666);
  mkNakshatra "Krittika" Sun (26.6666, 40.0);
  mkNakshatra "Rohini" Moon (40.0, 53.3333);
  mkNakshatra "Mrigashira" Mars (53.3333, 66.6666);
  mkNakshatra "Ardra" Rahu (66.6666, 80.0);
  mkNakshatra "Punarvasu" Jupiter (80.0, 93.3333);
  mkNakshatra "Pushya" Saturn (93.3333, 106.6666);
  mkNakshatra "Ashlesha" Mercury (106.6666, 120.0);
  mkNakshatra "Magha" Ketu (120.0, 133.3333);
  mkNakshatra "Purva Phalguni" Venus (133.3333, 146.6666);
  mkNakshatra "Uttara Phalguni" Sun (146.6666, 160.0);
  mkNakshatra "Hasta" Moon (160.0, 173.3333);
  mkNakshatra "Chitra" Mars (173.3333, 186.6666);
  mkNakshatra "Swati" Rahu (186.6666, 200.0);
  mkNakshatra "Vishakha" Jupiter (200.0, 213.3333);
  mkNakshatra "Anuradha" Saturn (213.3333, 226.6666);
  mkNakshatra "Jyeshtha" Mercury (226.6666, 240.0);
  mkNakshatra "Mula" Ketu (240.0, 253.3333);
  mkNakshatra "Purva Ashadha" Venus (253.3333, 266.6666);
  mkNakshatra "Uttara Ashadha" Sun (266.6666, 280.0);
  mkNakshatra "Shravana" Moon (280.0, 293.3333);
  mkNakshatra "Dhanishta" Mars (293.3333, 306.6666);
  mkNakshatra "Shatabhisha" Rahu (306.6666, 320.0);
  mkNakshatra "Purva Bhadrapada" Jupiter (320.0, 333.3333);
  mkNakshatra "Uttara Bhadrapada" Saturn (333.3333, 346.6666);
  mkNakshatra "Revati" Mercury (346.6666, 360.0)
]%string.

(** Mahadasha periods in years; a [dict], iterated in insertion order. *)
Definition mahadasha_periods : list (Planet * Z) := [
  (Ketu, 7); (Venus, 20); (Sun, 6); (Moon, 10); (Mars, 7);
  (Rahu, 18); (Jupiter, 16); (Saturn, 19); (Mercury, 17)
]%Z.

Record Influence : Type := mkInfluence {
  volatility : Q;
  direction : Direction;
  impact : string
}.

Definition planet_influences : list (Planet * Influence) := [
  (Ketu, mkInfluence 0.8 uncertain "sudden_changes");
  (Venus, mkInfluence 0.3 bullish "steady_growth");
  (Sun, mkInfluence 0.6 bullish "leadership_moves");
  (Moon, mkInfluence 0.5 neutral "sentiment_driven");
  (Mars, mkInfluence 0.9 bearish "aggressive_moves");
  (Rahu, mkInfluence 0.7 uncertain "unexpected_trends");
  (Jupiter, mkInfluence 0.2 bullish "expansion_growth");
  (Saturn, mkInfluence 0.4 bearish "correction_consolidation");
  (Mercury, mkInfluence 0.5 neutral "news_driven")
]%string.

(* ------------------------------------------------------------------ *)
(** ** Dictionaries as insertion-ordered association lists *)

Section Dict.
Context {K V : Type} (eqb : K -> K -> bool).

(** [d[k]] *)
Fixpoint dict_lookup (d : list (K * V)) (k : K) : result V :=
  match d with
  | [] => Raise KeyError
  | (k', v) :: t => if eqb k k' then Ok v else dict_lookup t k
  end.

(** [d.get(k, dflt)] *)
Fixpoint dict_get (d : list (K * V)) (k : K) (dflt : V) : V :=
  match d with
  | [] => dflt
  | (k', v) :: t => if eqb k k' then v else dict_get t k dflt
  end.

(** [d[k] = v]: an existing key keeps its position, a new key goes last. *)
Fixpoint dict_set (d : list (K * V)) (k : K) (v : V) : list (K * V) :=
  match d with
  | [] => [(k, v)]
  | (k', v') :: t =>
      if eqb k k' then (k', v) :: t else (k', v') :: dict_set t k v
  end.

Definition dict_keys (d : list (K * V)) : list K := map fst d.
Definition dict_values (d : list (K * V)) : list V := map snd d.
End Dict.

(** [max(d, key=d.get)] on a dict with integer values: the first key, in
    iteration order, whose value is not exceeded by any other. *)
Fixpoint max_key_from {K : Type} (best : K) (bv : Z) (l : list (K * Z)) : K :=
  match l with
  | [] => best
  | (k, v) :: t =>
      if (bv <? v)%Z then max_key_from k v t else max_key_from best bv t
  end.

Definition py_max_key {K : Type} (d : list (K * Z)) : result K :=
  match d with
  | [] => Raise ValueError
  | (k, v) :: t => Ok (max_key_from k v t)
  end.

(* ------------------------------------------------------------------ *)
(** ** Segment resolver: [get_current_nakshatra] *)

(** [start <= moon_longitude < end] *)
Definition in_range (n : Nakshatra) (moon_longitude : pyfloat) : bool :=
  let (start, end_) := range n in
  fle (Fin start) moon_longitude && flt moon_longitude (Fin end_).

Fixpoint scan_nakshatras (l : list Nakshatra) (moon_longitude : pyfloat)
  : option Nakshatra :=
  match l with
  | [] => None
  | nakshatra :: rest =>
      if in_range nakshatra moon_longitude then Some nakshatra
      else scan_nakshatras rest moon_longitude
  end.

Definition get_current_nakshatra (moon_longitude : pyfloat) : result Nakshatra :=
  match scan_nakshatras nakshatras moon_longitude with
  | Some nakshatra => Ok nakshatra
  | None => py_index nakshatras 0
  end.

(* ------------------------------------------------------------------ *)
(** ** Dates and times *)

Definition datetime : Type := Z.
Definition timedelta : Type := Z.

Definition us_per_second : Z := 1000000.
Definition us_per_minute : Z := 60 * us_per_second.
Definition us_per_hour : Z := 60 * us_per_minute.
Definition us_per_day : Z := 24 * us_per_hour.

Definition is_leap (y : Z) : bool :=
  ((y mod 4 =? 0) && (negb (y mod 100 =? 0) || (y mod 400 =? 0)))%Z.

Definition days_before_year (y : Z) : Z :=
  (let p := y - 1 in p * 365 + p / 4 - p / 100 + p / 400)%Z.

Definition days_before_month (y m : Z) : Z :=
  (nth (Z.to_nat (m - 1)) [0; 31; 59; 90; 120; 151; 181; 212; 243; 273; 304; 334] 0
   + (if (2 <? m) && is_leap y then 1 else 0))%Z.

(** Days since 0001-01-01 (the proleptic Gregorian ordinal minus one). *)
Definition ymd2days (y m d : Z) : Z :=
  (days_before_year y + days_before_month y m + (d - 1))%Z.

(** [datetime(y, m, d, hh, mm)] *)
Definition mk_datetime (y m d hh mm : Z) : datetime :=
  (ymd2days y m d * us_per_day + hh * us_per_hour + mm * us_per_minute)%Z.

(** [timedelta(minutes=n)] *)
Definition minutes (n : Z) : timedelta := (n * us_per_minute)%Z.

(** [td.days]: timedeltas are normalised with a floored day count. *)
Definition timedelta_days (td : timedelta) : Z := (td / us_per_day)%Z.

Definition digit (n : Z) : ascii := ascii_of_nat (48 + Z.to_nat n).

Definition two_digits (n : Z) : string :=
  String (digit (n / 10)) (String (digit (n mod 10)) EmptyString).

(** [t.strftime('%H:%M')] *)
Definition strftime_HM (t : datetime) : string :=
  (two_digits ((t / us_per_hour) mod 24) ++ ":" ++
   two_digits ((t / us_per_minute) mod 60))%string.

(** [t.replace(hour=hh, minute=mm, second=0, microsecond=0)] *)
Definition replace_time (t : datetime) (hh mm : Z) : datetime :=
  ((t / us_per_day) * us_per_day + hh * us_per_hour + mm * us_per_minute)%Z.

(* ------------------------------------------------------------------ *)
(** ** Cycle resolver: [calculate_dasha_bhukti] *)

(** The two shapes of dictionary the method returns: the one built inside
    the loop and the one of the final [return]. *)
Inductive DashaInfo : Type :=
| Dasha (mahadasha_lord bhukti_lord : Planet)
        (mahadasha_progress bhukti_progress : Q)
| DashaFallback (mahadasha_lord bhukti_lord : Planet) (progress : Q).

Definition days_per_year : Q := 365.25.

(** [sum(l)] on integers *)
Definition py_sum (l : list Z) : Z := fold_left Z.add l 0%Z.

Fixpoint dasha_loop (items : list (Planet * Z)) (elapsed_days current_days : Q)
  : result DashaInfo :=
  match items with
  | [] => Ok (DashaFallback Ketu Ketu 0.0)
  | (planet, years) :: rest =>
      let planet_days := inject_Z years * days_per_year in
      if Qle_bool current_days elapsed_days
         && Qltb elapsed_days (current_days + planet_days)
      then
        let bhukti_elapsed := elapsed_days - current_days in
        let bhukti_total := planet_days / 9 in
        q <- py_div bhukti_elapsed bhukti_total ;;
        let bhukti_index := py_int q in
        let bhukti_planets := dict_keys mahadasha_periods in
        current_bhukti <- py_index bhukti_planets bhukti_index ;;
        mahadasha_progress <- py_div (elapsed_days - current_days) planet_days ;;
        r <- py_mod bhukti_elapsed bhukti_total ;;
        bhukti_progress <- py_div r bhukti_total ;;
        Ok (Dasha planet current_bhukti mahadasha_progress bhukti_progress)
      else dasha_loop rest elapsed_days (current_days + planet_days)
  end.

Definition total_mahadasha_days : Q :=
  inject_Z (py_sum (dict_values mahadasha_periods)) * days_per_year.

Definition calculate_dasha_bhukti (birth_date current_date : datetime)
  : result DashaInfo :=
  let total_days := timedelta_days (current_date - birth_date)%Z in
  elapsed_days <- py_mod (inject_Z total_days) total_mahadasha_days ;;
  dasha_loop mahadasha_periods elapsed_days 0.

(** Field access on the returned dictionary. *)
Definition dasha_mahadasha_lord (d : DashaInfo) : Planet :=
  match d with Dasha m _ _ _ | DashaFallback m _ _ => m end.

Definition dasha_bhukti_lord (d : DashaInfo) : Planet :=
  match d with Dasha _ b _ _ | DashaFallback _ b _ => b end.

Definition dasha_mahadasha_progress (d : DashaInfo) : result Q :=
  match d with Dasha _ _ p _ => Ok p | DashaFallback _ _ _ => Raise KeyError end.

Definition dasha_bhukti_progress (d : DashaInfo) : result Q :=
  match d with Dasha _ _ _ p => Ok p | DashaFallback _ _ _ => Raise KeyError end.

(* ------------------------------------------------------------------ *)
(** ** Influence scorer and event detector *)

Definition calculate_combined_score (maha_inf bhukti_inf nakshatra_inf : Influence)
  : Q :=
  let base_score :=
    volatility maha_inf * 0.4 +
    volatility bhukti_inf * 0.3 +
    volatility nakshatra_inf * 0.3 in
  let base_score :=
    if Direction_eqb (direction maha_inf) (direction bhukti_inf)
       && Direction_eqb (direction bhukti_inf) (direction nakshatra_inf)
    then base_score * 1.3
    else base_score in
  py_min 1.0 base_score.

Definition detect_key_events (nakshatra : Nakshatra) (dasha_info : DashaInfo)
    (nakshatra_progress : Q) : result (list string) :=
  let events := [] in
  let events :=
    if Qltb 0.95 nakshatra_progress
    then events ++ [("Approaching " ++ name nakshatra ++ " end")%string]
    else events in
  mp <- dasha_mahadasha_progress dasha_info ;;
  let events :=
    if Qltb 0.98 mp then events ++ ["Mahadasha change imminent"%string]
    else events in
  bp <- dasha_bhukti_progress dasha_info ;;
  let events :=
    if Qltb 0.98 bp then events ++ ["Bhukti change imminent"%string]
    else events in
  let events :=
    if Planet_eqb (dasha_mahadasha_lord dasha_info) Rahu
       && Planet_eqb (dasha_bhukti_lord dasha_info) Mars
    then events ++ ["Rahu-Mars combination - High volatility expected"%string]
    else events in
  let events :=
    if Planet_eqb (lord nakshatra) Jupiter
       && Planet_eqb (dasha_mahadasha_lord dasha_info) Jupiter
    then events ++ ["Double Jupiter influence - Bullish bias"%string]
    else events in
  Ok events.

(* ------------------------------------------------------------------ *)
(** ** Sequence generator: [generate_minute_level_predictions] *)

Record Prediction : Type := mkPrediction {
  timestamp : datetime;
  time_str : string;
  moon_longitude : Q;
  current_nakshatra : string;
  nakshatra_lord : Planet;
  nakshatra_progress : Q;
  mahadasha_lord : Planet;
  bhukti_lord : Planet;
  mahadasha_progress : Q;
  bhukti_progress : Q;
  predicted_volatility : Q;
  predicted_direction : Direction;
  combined_influence_score : Q;
  key_events : list string
}.

(** [d[k] += 1] on an existing dictionary. *)
Definition dict_incr {K : Type} (eqb : K -> K -> bool)
    (d : list (K * Z)) (k : K) : result (list (K * Z)) :=
  v <- dict_lookup eqb d k ;;
  Ok (dict_set eqb d k (v + 1)%Z).

(** [for x in l: d[f(x)] += 1] *)
Fixpoint tally {K : Type} (eqb : K -> K -> bool)
    (d : list (K * Z)) (l : list K) : result (list (K * Z)) :=
  match l with
  | [] => Ok d
  | k :: rest => d' <- dict_incr eqb d k ;; tally eqb d' rest
  end.

(** [datetime(1992, 7, 1, 9, 15)], the NSE establishment date. *)
Definition market_birth : datetime := mk_datetime 1992 7 1 9 15.

Section Generator.

(** The ephemeris: [math.degrees(ephem.Moon(observer).ra)] for an observer
    whose date is the argument. *)
Variable moon_ra_degrees : datetime -> Q.

Definition calculate_moon_position (date_time : datetime) : result Q :=
  py_mod (moon_ra_degrees date_time) 360.

(** The body of the [while] loop: the record appended for [current_time]. *)
Definition minute_prediction (current_time : datetime) : result Prediction :=
  moon_long <- calculate_moon_position current_time ;;
  current_nakshatra <- get_current_nakshatra (Fin moon_long) ;;
  dasha_info <- calculate_dasha_bhukti market_birth current_time ;;
  let (nakshatra_start, nakshatra_end) := range current_nakshatra in
  nakshatra_progress <-
    py_div (moon_long - nakshatra_start) (nakshatra_end - nakshatra_start) ;;
  mahadasha_influence <-
    dict_lookup Planet_eqb planet_influences (dasha_mahadasha_lord dasha_info) ;;
  bhukti_influence <-
    dict_lookup Planet_eqb planet_influences (dasha_bhukti_lord dasha_info) ;;
  nakshatra_influence <-
    dict_lookup Planet_eqb planet_influences (lord current_nakshatra) ;;
  let total_volatility :=
    volatility mahadasha_influence * 0.4 +
    volatility bhukti_influence * 0.3 +
    volatility nakshatra_influence * 0.3 in
  let direction_weights :=
    [(bullish, 0); (bearish, 0); (neutral, 0); (uncertain, 0)]%Z in
  direction_weights <-
    tally Direction_eqb direction_weights
      [direction mahadasha_influence; direction bhukti_influence;
       direction nakshatra_influence] ;;
  predicted_direction <- py_max_key direction_weights ;;
  mp <- dasha_mahadasha_progress dasha_info ;;
  bp <- dasha_bhukti_progress dasha_info ;;
  let score :=
    calculate_combined_score mahadasha_influence bhukti_influence
      nakshatra_influence in
  events <- detect_key_events current_nakshatra dasha_info nakshatra_progress ;;
  Ok {| timestamp := current_time;
        time_str := strftime_HM current_time;
        moon_longitude := moon_long;
        current_nakshatra := name current_nakshatra;
        nakshatra_lord := lord current_nakshatra;
        nakshatra_progress := nakshatra_progress;
        mahadasha_lord := dasha_mahadasha_lord dasha_info;
        bhukti_lord := dasha_bhukti_lord dasha_info;
        mahadasha_progress := mp;
        bhukti_progress := bp;
        predicted_volatility := total_volatility;
        predicted_direction := predicted_direction;
        combined_influence_score := score;
        key_events := events |}.

(** [while current_time <= end_time: ...; current_time += timedelta(minutes=1)].
    [None] means the fuel ran out before the loop condition became false. *)
Fixpoint generate_loop (fuel : nat) (current_time end_time : datetime)
  : option (result (list Prediction)) :=
  if (current_time <=? end_time)%Z then
    match fuel with
    | O => None
    | S fuel' =>
        match minute_prediction current_time with
        | Raise e => Some (Raise e)
        | Ok prediction =>
            match generate_loop fuel' (current_time + minutes 1)%Z end_time with
            | None => None
            | Some (Raise e) => Some (Raise e)
            | Some (Ok predictions) => Some (Ok (prediction :: predictions))
            end
        end
    end
  else Some (Ok []).

(** Number of iterations the loop can make. *)
Definition generate_fuel (start_time end_time : datetime) : nat :=
  Z.to_nat ((end_time - start_time) / us_per_minute + 1)%Z.

Definition generate_minute_level_predictions (start_time end_time : datetime)
  : option (result (list Prediction)) :=
  generate_loop (generate_fuel start_time end_time) start_time end_time.

End Generator.

(* ------------------------------------------------------------------ *)
(** ** Session aggregator *)

Record KeyPeriod : Type := mkKeyPeriod {
  kp_type : string;
  kp_periods : list string;
  kp_intensity : string;
  kp_recommendation : string
}.

Definition identify_key_periods (predictions : list Prediction) : list KeyPeriod :=
  let key_periods := [] in
  let high_vol_periods :=
    filter (fun p => Qltb 0.7 (predicted_volatility p)) predictions in
  let key_periods :=
    match high_vol_periods with
    | [] => key_periods
    | _ => key_periods ++
           [mkKeyPeriod "High Volatility"
              (map time_str (py_take 3 high_vol_periods))
              "Very High" "Caution - Tight stop losses"]
    end in
  let strong_bullish :=
    filter (fun p => Direction_eqb (predicted_direction p) bullish
                     && Qltb 0.7 (combined_influence_score p)) predictions in
  let strong_bearish :=
    filter (fun p => Direction_eqb (predicted_direction p) bearish
                     && Qltb 0.7 (combined_influence_score p)) predictions in
  let key_periods :=
    match strong_bullish with
    | [] => key_periods
    | _ => key_periods ++
           [mkKeyPeriod "Strong Bullish Bias"
              (map time_str (py_take 2 strong_bullish))
              "High" "Good for long entries"]
    end in
  let key_periods :=
    match strong_bearish with
    | [] => key_periods
    | _ => key_periods ++
           [mkKeyPeriod "Strong Bearish Bias"
              (map time_str (py_take 2 strong_bearish))
              "High" "Consider short positions"]
    end in
  key_periods.

Definition upper (c : ascii) : ascii :=
  let n := nat_of_ascii c in
  if (97 <=? n)%nat && (n <=? 122)%nat then ascii_of_nat (n - 32) else c.

Definition lower (c : ascii) : ascii :=
  let n := nat_of_ascii c in
  if (65 <=? n)%nat && (n <=? 90)%nat then ascii_of_nat (n + 32) else c.

Fixpoint string_map (f : ascii -> ascii) (s : string) : string :=
  match s with
  | EmptyString => EmptyString
  | String c t => String (f c) (string_map f t)
  end.

(** [s.capitalize()] on ASCII text *)
Definition capitalize (s : string) : string :=
  match s with
  | EmptyString => EmptyString
  | String c t => String (upper c) (string_map lower t)
  end.

Definition get_session_character (direction : Direction) (volatility : Q) : string :=
  if Qltb 0.7 volatility then "Highly Volatile"
  else if Qltb 0.5 volatility
  then "Moderately Volatile " ++ capitalize (Direction_name direction)
  else "Stable " ++ capitalize (Direction_name direction).

Record SessionOutcome : Type := mkSessionOutcome {
  overall_direction : Direction;
  confidence : Q;
  average_volatility : Q;
  session_character : string
}.

(** [d[k] = d.get(k, 0) + 1] *)
Definition count_up {K : Type} (eqb : K -> K -> bool)
    (d : list (K * Z)) (k : K) : list (K * Z) :=
  dict_set eqb d k (dict_get eqb d k 0 + 1)%Z.

(** The [for pred in predictions] loop of [predict_session_outcome],
    threading [direction_counts] and [total_volatility]. *)
Fixpoint outcome_loop (predictions : list Prediction)
    (direction_counts : list (Direction * Z)) (total_volatility : Q)
  : list (Direction * Z) * Q :=
  match predictions with
  | [] => (direction_counts, total_volatility)
  | pred :: rest =>
      let direction := predicted_direction pred in
      outcome_loop rest
        (count_up Direction_eqb direction_counts direction)
        (total_volatility + predicted_volatility pred)
  end.

(** [len(l)] *)
Definition py_len {A : Type} (l : list A) : Z := Z.of_nat (List.length l).

Definition predict_session_outcome (predictions : list Prediction)
  : result SessionOutcome :=
  let (direction_counts, total_volatility) := outcome_loop predictions [] 0 in
  avg_volatility <- py_div total_volatility (inject_Z (py_len predictions)) ;;
  dominant_direction <- py_max_key direction_counts ;;
  c <- dict_lookup Direction_eqb direction_counts dominant_direction ;;
  confidence <- py_div (inject_Z c) (inject_Z (py_len predictions)) ;;
  Ok {| overall_direction := dominant_direction;
        confidence := confidence;
        average_volatility := avg_volatility;
        session_character :=
          get_session_character dominant_direction avg_volatility |}.

Record PlanetShare : Type := mkPlanetShare {
  planet : Planet;
  influence_percentage : Q
}.

(** [for pred in predictions: for lord in lords: lord_counts[lord] = ...] *)
Fixpoint lord_loop (predictions : list Prediction) (lord_counts : list (Planet * Z))
  : list (Planet * Z) :=
  match predictions with
  | [] => lord_counts
  | pred :: rest =>
      let lords := [mahadasha_lord pred; bhukti_lord pred; nakshatra_lord pred] in
      lord_loop rest (fold_left (count_up Planet_eqb) lords lord_counts)
  end.

(** [sorted(items, key=lambda x: x[1], reverse=True)]: stable, so items with
    equal counts keep their relative order. *)
Fixpoint insert_desc {K : Type} (x : K * Z) (l : list (K * Z)) : list (K * Z) :=
  match l with
  | [] => [x]
  | y :: t => if (snd x <? snd y)%Z then y :: insert_desc x t else x :: y :: t
  end.

Definition sorted_desc {K : Type} (l : list (K * Z)) : list (K * Z) :=
  fold_right insert_desc [] l.

Fixpoint share_list (total : Z) (l : list (Planet * Z)) : result (list PlanetShare) :=
  match l with
  | [] => Ok []
  | (lord, count) :: rest =>
      q <- py_div (inject_Z count) (inject_Z total) ;;
      tl <- share_list total rest ;;
      Ok (mkPlanetShare lord (q * 100) :: tl)
  end.

Definition get_dominant_influences (predictions : list Prediction)
  : result (list PlanetShare) :=
  let lord_counts := lord_loop predictions [] in
  let total := (py_len predictions * 3)%Z in
  share_list total (py_take 3 (sorted_desc lord_counts)).

Inductive RiskLevel : Type := HIGH | MEDIUM | LOW.

Record RiskAssessment : Type := mkRisk {
  level : RiskLevel;
  advice : string
}.

Definition assess_session_risk (predictions : list Prediction)
  : result RiskAssessment :=
  let high_risk_periods :=
    py_len (filter (fun p => Qltb 0.7 (predicted_volatility p)) predictions) in
  risk_ratio <- py_div (inject_Z high_risk_periods) (inject_Z (py_len predictions)) ;;
  if Qltb 0.3 risk_ratio then Ok (mkRisk HIGH "Reduce position sizing")
  else if Qltb 0.15 risk_ratio then Ok (mkRisk MEDIUM "Normal caution advised")
  else Ok (mkRisk LOW "Favorable for trading").

Record SessionReport : Type := mkSessionReport {
  minute_predictions : list Prediction;
  key_periods : list KeyPeriod;
  session_prediction : SessionOutcome;
  dominant_influences : list PlanetShare;
  risk_assessment : RiskAssessment
}.

Definition get_trading_session_predictions (moon_ra_degrees : datetime -> Q)
    (analysis_date : datetime) : option (result SessionReport) :=
  let market_open := replace_time analysis_date 9 15 in
  let market_close := replace_time analysis_date 15 30 in
  match generate_minute_level_predictions moon_ra_degrees market_open market_close with
  | None => None
  | Some (Raise e) => Some (Raise e)
  | Some (Ok minute_predictions) =>
      Some (let key_periods := identify_key_periods minute_predictions in
            session_prediction <- predict_session_outcome minute_predictions ;;
            dominant <- get_dominant_influences minute_predictions ;;
            risk <- assess_session_risk minute_predictions ;;
            Ok (mkSessionReport minute_predictions key_periods
                  session_prediction dominant risk))
  end.

(* ------------------------------------------------------------------ *)
(** ** Vocabulary of the specification *)

(** Width of a segment's range. *)
Definition span (n : Nakshatra) : Q := snd (range n) - fst (range n).

(** [contains n L]: the half-open range of [n] contains the rational [L]. *)
Definition contains (n : Nakshatra) (L : Q) : Prop :=
  fst (range n) <= L /\ L < snd (range n).

(** [chain a l b]: the ranges of [l] are non-empty, start at [a], end at [b]
    and each one starts where the previous one ends. *)
Inductive chain : Q -> list Nakshatra -> Q -> Prop :=
| chain_nil a b : a == b -> chain a [] b
| chain_cons a n l b :
    fst (range n) == a -> a < snd (range n) ->
    chain (snd (range n)) l b -> chain a (n :: l) b.

(** Every segment as wide as a 27th of the circle. *)
Definition equal_spans : Prop :=
  forall n, In n nakshatras -> span n == 360 / 27.

(** Every longitude of [0, 360) lies in the range of exactly one entry of
    the table (entries are told apart by their position). *)
Definition exact_cover : Prop :=
  forall L, 0 <= L -> L < 360 ->
  exists i n, nth_error nakshatras i = Some n /\ contains n L /\
    forall j m, nth_error nakshatras j = Some m -> contains m L -> j = i.

(** The first entry of the segment table. *)
Definition Ashwini : Nakshatra := mkNakshatra "Ashwini" Ketu (0, 13.3333).

(** Length in days of a major period of [years] years. *)
Definition planet_days (years : Z) : Q := inject_Z years * days_per_year.

(** Summed length in days of the major periods of [items]. *)
Fixpoint sum_days (items : list (Planet * Z)) : Q :=
  match items with
  | [] => 0
  | (_, years) :: rest => planet_days years + sum_days rest
  end.

(** Whole days from [epoch] to [instant] (negative before the epoch). *)
Definition elapsed_whole_days (epoch instant : datetime) : Z :=
  timedelta_days (instant - epoch)%Z.

(** Position of [instant] inside the macro-cycle that starts at [epoch]. *)
Definition phase (epoch instant : datetime) : Q :=
  let d := inject_Z (elapsed_whole_days epoch instant) in
  d - inject_Z (Qfloor (d / total_mahadasha_days)) * total_mahadasha_days.

(** The nine rulers in their declared order. *)
Definition ruler_order : list Planet :=
  [Ketu; Venus; Sun; Moon; Mars; Rahu; Jupiter; Saturn; Mercury].

(** The weighted volatility blend of the three influences. *)
Definition blend (major sub segment : Influence) : Q :=
  0.4 * volatility major + 0.3 * volatility sub + 0.3 * volatility segment.

(** All three influences point the same way. *)
Definition aligned (major sub segment : Influence) : Prop :=
  direction major = direction sub /\ direction sub = direction segment.

(** Number of records whose volatility exceeds 0.7. *)
Fixpoint high_vol_count (records : list Prediction) : Z :=
  match records with
  | [] => 0
  | r :: rest =>
      ((if Qlt_le_dec 0.7 (predicted_volatility r) then 1 else 0)
       + high_vol_count rest)%Z
  end.

(** Share of the records whose volatility exceeds 0.7. *)
Definition high_vol_ratio (records : list Prediction) : Q :=
  inject_Z (high_vol_count records) / inject_Z (Z.of_nat (List.length records)).

(** A record with the given volatility and direction, for examples. *)
Definition sample_record (v : Q) (d : Direction) : Prediction :=
  {| timestamp := market_birth;
     time_str := "09:15";
     moon_longitude := 0;
     current_nakshatra := "Ashwini";
     nakshatra_lord := Ketu;
     nakshatra_progress := 0;
     mahadasha_lord := Ketu;
     bhukti_lord := Ketu;
     mahadasha_progress := 0;
     bhukti_progress := 0;
     predicted_volatility := v;
     predicted_direction := d;
     combined_influence_score := v;
     key_events := [] |}.

(** Number of occurrences of [k] in [l]. *)
Fixpoint occurrences {K : Type} (eqb : K -> K -> bool) (k : K) (l : list K) : Z :=
  match l with
  | [] => 0
  | h :: t => ((if eqb k h then 1 else 0) + occurrences eqb k t)%Z
  end.

(** The directions of a record sequence, in record order. *)
Definition directions (records : list Prediction) : list Direction :=
  map predicted_direction records.

(** Number of records whose direction is [d]. *)
Definition direction_count (d : Direction) (records : list Prediction) : Z :=
  occurrences Direction_eqb d (directions records).

(** The declared enumeration order of the direction buckets. *)
Definition direction_order : list Direction :=
  [bullish; bearish; neutral; uncertain].

(** The winner under the rule of the specification: the first bucket, in
    the declared enumeration order, that reaches the maximum count. *)
Definition enum_order_winner (records : list Prediction) : result Direction :=
  py_max_key (map (fun d => (d, direction_count d records)) direction_order).

(* ------------------------------------------------------------------ *)
(** ** Chart layer: [find_nakshatra_changes] of [minute_charts_app.py] *)

Record NakshatraChange : Type := mkChange {
  ch_index : Z;
  ch_time : string;
  ch_nakshatra : string;
  ch_previous : string
}.

(** The loop over [df.iterrows()].  The frame is [pd.DataFrame] of the list
    of minute records, so its rows are the records in order, labelled
    0, 1, 2, ...; [current] is the loop variable [current_nakshatra]
    ([None] until the first row has been seen). *)
Fixpoint changes_loop (rows : list Prediction) (i : Z) (current : option string)
  : list NakshatraChange :=
  match rows with
  | [] => []
  | row :: rest =>
      match current with
      | None => changes_loop rest (i + 1)%Z (Some (current_nakshatra row))
      | Some previous =>
          if negb (String.eqb (current_nakshatra row) previous)
          then mkChange i (time_str row) (current_nakshatra row) previous
               :: changes_loop rest (i + 1)%Z (Some (current_nakshatra row))
          else changes_loop rest (i + 1)%Z (Some previous)
      end
  end.

Definition find_nakshatra_changes (df : list Prediction) : list NakshatraChange :=
  changes_loop df 0 None.

(* ------------------------------------------------------------------ *)
(** ** Further vocabulary *)

(** The instants the generator visits: [start], [start + 1 min], ... up to
    [end_time]. *)
Definition minute_stamps (start_time end_time : datetime) : list datetime :=
  map (fun i => (start_time + minutes (Z.of_nat i))%Z)
      (seq 0 (generate_fuel start_time end_time)).




(** The three lords of every record, in the order the tally visits them. *)
Definition all_lords (records : list Prediction) : list Planet :=
  flat_map (fun p => [mahadasha_lord p; bhukti_lord p; nakshatra_lord p]) records.

(** Number of times [q] is a lord (major, sub or segment) in [records]. *)
Definition lord_count (q : Planet) (records : list Prediction) : Z :=
  occurrences Planet_eqb q (all_lords records).

(** [count_ge a b]: entry [a] has a count at least as large as [b]'s. *)
Definition count_ge {K : Type} (a b : K * Z) : Prop := (snd b <= snd a)%Z.

(** [d.capitalize()] for the four direction names. *)
Definition Direction_title (d : Direction) : string :=
  match d with
  | bullish => "Bullish" | bearish => "Bearish"
  | neutral => "Neutral" | uncertain => "Uncertain"
  end%string.

(** [datetime.max], 9999-12-31 23:59:59.999999: adding a [timedelta] that
    leads past it raises [OverflowError], which the model of the generator
    leaves out; the windows meant below end early enough for the loop's last
    [current_time += timedelta(minutes=1)] to stay in range. *)
Definition datetime_max : datetime :=
  (mk_datetime 9999 12 31 23 59 + 59 * us_per_second + 999999)%Z.

(** The timestamp of a record and the cycle state stored in it. *)
Definition cycle_state_of (p : Prediction) : datetime * DashaInfo :=
  (timestamp p,
   Dasha (mahadasha_lord p) (bhukti_lord p)
         (mahadasha_progress p) (bhukti_progress p)).

(* ================================================================== *)
(** * Properties *)

(** ** Comparisons *)

Lemma Qltb_true (x y : Q) : Qltb x y = true <-> x < y.
Proof.
  unfold Qltb. rewrite negb_true_iff. split.
  - intros H. apply Qnot_le_lt. intros Hle.
    apply Qle_bool_iff in Hle. congruence.
  - intros H. destruct (Qle_bool y x) eqn:E; [|reflexivity].
    apply Qle_bool_iff in E. exfalso. apply (Qlt_not_le _ _ H E).
Qed.

Lemma Qltb_false (x y : Q) : Qltb x y = false <-> y <= x.
Proof.
  unfold Qltb. rewrite negb_false_iff. apply Qle_bool_iff.
Qed.

Lemma Qeq_bool_false (x y : Q) : ~ x == y -> Qeq_bool x y = false.
Proof.
  intros H. destruct (Qeq_bool x y) eqn:E; [|reflexivity].
  apply Qeq_bool_iff in E. contradiction.
Qed.

Lemma py_div_ok (x y : Q) : ~ y == 0 -> py_div x y = Ok (x / y).
Proof. intros H. unfold py_div. now rewrite Qeq_bool_false. Qed.

Lemma py_mod_ok (x y : Q) :
  ~ y == 0 -> py_mod x y = Ok (x - inject_Z (Qfloor (x / y)) * y).
Proof. intros H. unfold py_mod. now rewrite Qeq_bool_false. Qed.

(** ** The segment table *)

Lemma in_range_Fin (n : Nakshatra) (L : Q) :
  in_range n (Fin L) = true <-> contains n L.
Proof.
  unfold in_range, contains. destruct (range n) as [s e]. simpl.
  rewrite andb_true_iff, Qle_bool_iff, Qltb_true. reflexivity.
Qed.

Lemma chain_le a l b : chain a l b -> a <= b.
Proof.
  induction 1 as [a b E | a n l b E Hlt _ IH].
  - rewrite E. apply Qle_refl.
  - apply Qlt_le_weak in Hlt. eapply Qle_trans; eassumption.
Qed.

Lemma chain_bounds a l b :
  chain a l b ->
  forall j m, nth_error l j = Some m ->
    a <= fst (range m) /\ snd (range m) <= b.
Proof.
  induction 1 as [a b E | a n l b E Hlt Hc IH]; intros j m Hj.
  - destruct j; discriminate.
  - destruct j as [|j]; simpl in Hj.
    + injection Hj as <-. split.
      * rewrite E. apply Qle_refl.
      * eapply chain_le; eassumption.
    + destruct (IH _ _ Hj) as [H1 H2]. split; [|assumption].
      apply Qlt_le_weak in Hlt. eapply Qle_trans; eassumption.
Qed.

Lemma chain_unique_index a l b :
  chain a l b ->
  forall L, a <= L -> L < b ->
  exists i n, nth_error l i = Some n /\ contains n L /\
    forall j m, nth_error l j = Some m -> contains m L -> j = i.
Proof.
  induction 1 as [a b E | a n l b E Hlt Hc IH]; intros L Ha Hb.
  - exfalso. rewrite E in Ha. apply (Qlt_not_le _ _ Hb Ha).
  - destruct (Qlt_le_dec L (snd (range n))) as [Hin | Hout].
    + exists O, n. split; [reflexivity|]. split.
      * split; [rewrite E|]; assumption.
      * intros [|j] m Hj [Hm1 Hm2]; [reflexivity|]. simpl in Hj.
        destruct (chain_bounds _ _ _ Hc _ _ Hj) as [Hlo _].
        exfalso. apply (Qlt_not_le _ _ Hin). eapply Qle_trans; eassumption.
    + destruct (IH L Hout Hb) as (i & m & Hi & Hm & Huniq).
      exists (S i), m. split; [exact Hi|]. split; [exact Hm|].
      intros [|j] m' Hj Hm'.
      * simpl in Hj. injection Hj as <-. destruct Hm' as [_ Hm'].
        exfalso. apply (Qlt_not_le _ _ Hm' Hout).
      * f_equal. eapply Huniq; eassumption.
Qed.

Lemma nakshatras_chain : chain 0 nakshatras 360.
Proof.
  unfold nakshatras.
  repeat (apply chain_cons; [reflexivity | reflexivity |]); simpl.
  apply chain_nil. reflexivity.
Qed.

Lemma scan_nakshatras_none l x :
  scan_nakshatras l x = None <-> forall n, In n l -> in_range n x = false.
Proof.
  induction l as [|n l IH]; simpl.
  - split; [intros _ ? []|reflexivity].
  - destruct (in_range n x) eqn:E.
    + split; [discriminate|]. intros H.
      specialize (H n (or_introl eq_refl)). congruence.
    + rewrite IH. split.
      * intros H m [<-|Hm]; auto.
      * intros H m Hm. apply H. now right.
Qed.

Lemma scan_nakshatras_first l x i n :
  nth_error l i = Some n -> in_range n x = true ->
  (forall j m, nth_error l j = Some m -> in_range m x = true -> j = i) ->
  scan_nakshatras l x = Some n.
Proof.
  revert i. induction l as [|h l IH]; intros i Hi Hn Huniq.
  - destruct i; discriminate.
  - simpl. destruct (in_range h x) eqn:E.
    + specialize (Huniq O h eq_refl E). subst i. simpl in Hi. exact Hi.
    + destruct i as [|i]; simpl in Hi.
      * injection Hi as ->. congruence.
      * apply (IH i Hi Hn). intros j m Hj Hm.
        specialize (Huniq (S j) m Hj Hm). now injection Huniq.
Qed.

Lemma no_range_fallback x :
  (forall n, In n nakshatras -> in_range n x = false) ->
  get_current_nakshatra x = Ok Ashwini.
Proof.
  intros H. unfold get_current_nakshatra.
  apply scan_nakshatras_none in H. rewrite H. reflexivity.
Qed.

Lemma outside_no_range (q : Q) n :
  q < 0 \/ 360 <= q -> In n nakshatras -> in_range n (Fin q) = false.
Proof.
  intros Hq Hn. destruct (in_range n (Fin q)) eqn:E; [|reflexivity].
  apply in_range_Fin in E. destruct E as [E1 E2].
  apply In_nth_error in Hn. destruct Hn as [j Hj].
  destruct (chain_bounds _ _ _ nakshatras_chain _ _ Hj) as [Hlo Hhi].
  exfalso. destruct Hq as [Hq | Hq].
  - apply (Qlt_not_le _ _ Hq). eapply Qle_trans; eassumption.
  - apply (Qlt_not_le _ _ E2). eapply Qle_trans; eassumption.
Qed.

Lemma nonfinite_no_range x n :
  x = NaN \/ x = PInf \/ x = NInf -> in_range n x = false.
Proof.
  unfold in_range. destruct (range n) as [s e].
  intros [-> | [-> | ->]]; reflexivity.
Qed.

Lemma nakshatras_span_bounds :
  forall n, In n nakshatras ->
    360 / 27 - 0.0001 < span n /\ span n < 360 / 27 + 0.0001 /\
    ~ span n == 360 / 27.
Proof.
  apply Forall_forall. unfold nakshatras.
  repeat (apply Forall_cons;
          [split; [reflexivity | split; [reflexivity | discriminate]]|]).
  apply Forall_nil.
Qed.

Lemma nakshatras_exact_cover : exact_cover.
Proof.
  intros L H0 H360. exact (chain_unique_index _ _ _ nakshatras_chain L H0 H360).
Qed.

(** C4, as stated, fails: the table's ranges are cut at four decimals, so
    the first segment is 13.3333 wide, not 360/27. *)
Lemma segment_spans_not_360_27 :
  ~ (chain 0 nakshatras 360 /\ equal_spans /\ exact_cover).
Proof.
  intros (_ & H & _). specialize (H Ashwini (or_introl eq_refl)).
  vm_compute in H. discriminate H.
Qed.

(** C4, amended: the 27 entries of the segment table partition [0, 360)
    exactly -- contiguous, non-overlapping, each span within 0.0001 degrees
    of 360/27 without being equal to it (the boundaries are written with
    four decimals) -- so that every longitude [L] of [0, 360) lies in the
    half-open range of exactly one segment, which is the one
    [get_current_nakshatra] returns. *)
Theorem segment_table_partition :
  List.length nakshatras = 27%nat /\
  chain 0 nakshatras 360 /\
  (forall n, In n nakshatras ->
     360 / 27 - 0.0001 < span n /\ span n < 360 / 27 + 0.0001 /\
     ~ span n == 360 / 27) /\
  forall L, 0 <= L -> L < 360 ->
    exists i n, nth_error nakshatras i = Some n /\ contains n L /\
      (forall j m, nth_error nakshatras j = Some m -> contains m L -> j = i) /\
      get_current_nakshatra (Fin L) = Ok n.
Proof.
  split; [reflexivity|]. split; [exact nakshatras_chain|].
  split; [exact nakshatras_span_bounds|].
  intros L H0 H360.
  destruct (nakshatras_exact_cover L H0 H360) as (i & n & Hi & Hn & Huniq).
  exists i, n. repeat split; try assumption; try apply Hn.
  unfold get_current_nakshatra.
  rewrite (scan_nakshatras_first nakshatras (Fin L) i n Hi); [reflexivity | |].
  - now apply in_range_Fin.
  - intros j m Hj Hm. apply (Huniq j m Hj). now apply in_range_Fin.
Qed.

Lemma segment_table_partition_witness :
  exists i n, nth_error nakshatras i = Some n /\ contains n 100 /\
    (forall j m, nth_error nakshatras j = Some m -> contains m 100 -> j = i) /\
    get_current_nakshatra (Fin 100) = Ok n.
Proof.
  apply (proj2 (proj2 (proj2 segment_table_partition)) 100).
  - vm_compute. discriminate.
  - vm_compute. reflexivity.
Defined.

Lemma get_current_nakshatra_ok x :
  exists n, In n nakshatras /\ get_current_nakshatra x = Ok n.
Proof.
  unfold get_current_nakshatra.
  destruct (scan_nakshatras nakshatras x) as [n|] eqn:E.
  - exists n. split; [|reflexivity].
    clear -E. induction nakshatras as [|h l IH]; simpl in E; [discriminate|].
    destruct (in_range h x).
    + injection E as <-. now left.
    + right. now apply IH.
  - exists Ashwini. split; [now left | reflexivity].
Qed.

(** C9: the segment resolver is total.  A longitude that lies in no
    segment's half-open range -- 360, any negative value, any value above
    360, an infinity or NaN -- resolves to the first segment (index 0,
    Ashwini), and no input makes [get_current_nakshatra] raise. *)
Theorem get_current_nakshatra_total :
  (forall x, (forall n, In n nakshatras -> in_range n x = false) ->
             get_current_nakshatra x = Ok Ashwini) /\
  (forall q, q < 0 \/ 360 <= q -> get_current_nakshatra (Fin q) = Ok Ashwini) /\
  get_current_nakshatra NaN = Ok Ashwini /\
  get_current_nakshatra PInf = Ok Ashwini /\
  get_current_nakshatra NInf = Ok Ashwini /\
  nth_error nakshatras 0 = Some Ashwini /\
  forall x, exists n, In n nakshatras /\ get_current_nakshatra x = Ok n.
Proof.
  split; [exact no_range_fallback|].
  split.
  { intros q Hq. apply no_range_fallback. intros n Hn.
    now apply outside_no_range. }
  split; [apply no_range_fallback; intros n _; apply nonfinite_no_range; auto|].
  split; [apply no_range_fallback; intros n _; apply nonfinite_no_range; auto|].
  split; [apply no_range_fallback; intros n _; apply nonfinite_no_range; auto|].
  split; [reflexivity | exact get_current_nakshatra_ok].
Qed.

Lemma get_current_nakshatra_total_witness :
  get_current_nakshatra (Fin 360) = Ok Ashwini /\
  get_current_nakshatra (Fin (-5)) = Ok Ashwini /\
  get_current_nakshatra (Fin 400.5) = Ok Ashwini.
Proof.
  split; [|split].
  - apply (proj1 get_current_nakshatra_total).
    intros n Hn. apply outside_no_range; [|exact Hn].
    right. vm_compute. discriminate.
  - apply (proj1 (proj2 get_current_nakshatra_total)).
    left. vm_compute. reflexivity.
  - apply (proj1 (proj2 get_current_nakshatra_total)).
    right. vm_compute. discriminate.
Defined.

(** ** The cycle resolver *)

Lemma mod_bounds (x y : Q) :
  0 < y ->
  0 <= x - inject_Z (Qfloor (x / y)) * y /\
  x - inject_Z (Qfloor (x / y)) * y < y.
Proof.
  intros Hy.
  assert (Hne : ~ y == 0) by (intros E; rewrite E in Hy; discriminate Hy).
  pose proof (Qfloor_le (x / y)) as Hlo.
  pose proof (Qlt_floor (x / y)) as Hhi.
  rewrite inject_Z_plus in Hhi.
  set (k := inject_Z (Qfloor (x / y))) in *.
  assert (Hx : x == (x / y) * y) by (field; exact Hne).
  apply (Qmult_le_compat_r _ _ y) in Hlo; [|apply Qlt_le_weak; exact Hy].
  apply (Qmult_lt_compat_r _ _ y) in Hhi; [|exact Hy].
  rewrite <- Hx in Hlo, Hhi.
  clearbody k. change (inject_Z 1) with 1 in Hhi.
  split; lra.
Qed.

Lemma frac_bounds (a b : Q) :
  0 <= a -> a < b -> 0 <= a / b /\ a / b < 1.
Proof.
  intros Ha Hab.
  assert (Hb : 0 < b) by (eapply Qle_lt_trans; eassumption).
  split.
  - apply Qle_shift_div_l; [exact Hb|]. lra.
  - apply Qlt_shift_div_r; [exact Hb|]. lra.
Qed.

Lemma py_int_nonneg (q : Q) : 0 <= q -> py_int q = Qfloor q.
Proof.
  intros H. unfold py_int. apply Qle_bool_iff in H. now rewrite H.
Qed.

Lemma Qfloor_range (q : Q) (n : Z) :
  0 <= q -> q < inject_Z n -> (0 <= Qfloor q < n)%Z.
Proof.
  intros H0 Hn. split.
  - change 0%Z with (Qfloor 0). now apply Qfloor_resp_le.
  - rewrite Zlt_Qlt. eapply Qle_lt_trans; [apply Qfloor_le | exact Hn].
Qed.

Lemma py_index_in_range {A : Type} (l : list A) (i : Z) :
  (0 <= i < Z.of_nat (List.length l))%Z ->
  exists a, py_index l i = Ok a /\ nth_error l (Z.to_nat i) = Some a.
Proof.
  intros [H0 Hn]. unfold py_index.
  destruct (i <? 0)%Z eqn:E; [apply Z.ltb_lt in E; lia|]. rewrite E.
  destruct (nth_error l (Z.to_nat i)) as [a|] eqn:En.
  - exists a. split; reflexivity.
  - apply nth_error_None in En. lia.
Qed.

Lemma planet_days_pos (y : Z) : (0 < y)%Z -> 0 < planet_days y.
Proof.
  intros H. unfold planet_days, days_per_year.
  apply Qmult_lt_0_compat; [|reflexivity].
  change 0 with (inject_Z 0). now rewrite <- Zlt_Qlt.
Qed.

Lemma total_mahadasha_days_sum : sum_days mahadasha_periods == total_mahadasha_days.
Proof. vm_compute. reflexivity. Qed.

Lemma total_mahadasha_days_value : total_mahadasha_days == 43830.
Proof. vm_compute. reflexivity. Qed.

Lemma ruler_order_keys : dict_keys mahadasha_periods = ruler_order.
Proof. reflexivity. Qed.

Lemma sub_index_bounds (a pd : Q) :
  0 <= a -> a < pd -> (0 <= Qfloor (a / (pd / 9)) < 9)%Z.
Proof.
  intros Ha Hlt.
  assert (Hpd : 0 < pd) by (eapply Qle_lt_trans; eassumption).
  assert (Hbt : 0 < pd / 9) by (apply Qlt_shift_div_l; [reflexivity | lra]).
  apply Qfloor_range.
  - apply Qle_shift_div_l; [exact Hbt | lra].
  - apply Qlt_shift_div_r; [exact Hbt|].
    change (inject_Z 9) with 9.
    assert (E : 9 * (pd / 9) == pd) by (field; discriminate).
    rewrite E. exact Hlt.
Qed.

(** What one run of the loop of [calculate_dasha_bhukti] returns when the
    phase [e] lies inside the periods still to be walked. *)
Lemma dasha_loop_spec items :
  forall e c,
  (forall p y, In (p, y) items -> (0 < y)%Z) ->
  c <= e -> e < c + sum_days items ->
  exists pre ml y post start bl mp bp,
    items = pre ++ (ml, y) :: post /\
    start == c + sum_days pre /\
    dasha_loop items e c = Ok (Dasha ml bl mp bp) /\
    (start <= e /\ e < start + planet_days y) /\
    mp = (e - start) / planet_days y /\
    nth_error ruler_order
      (Z.to_nat (Qfloor ((e - start) / (planet_days y / 9)))) = Some bl /\
    bp = ((e - start)
          - inject_Z (Qfloor ((e - start) / (planet_days y / 9)))
            * (planet_days y / 9)) / (planet_days y / 9) /\
    (0 <= mp /\ mp < 1) /\ (0 <= bp /\ bp < 1).
Proof.
  induction items as [|[p y] rest IH]; intros e c Hpos Hc He.
  - simpl in He. exfalso. lra.
  - assert (Hy : 0 < planet_days y).
    { apply planet_days_pos. apply (Hpos p). now left. }
    cbn [dasha_loop]. change (inject_Z y * days_per_year) with (planet_days y).
    destruct (Qle_bool c e && Qltb e (c + planet_days y)) eqn:Hcond.
    + apply andb_true_iff in Hcond. destruct Hcond as [_ Hhi].
      apply Qltb_true in Hhi.
      assert (Ha : 0 <= e - c) by lra.
      assert (Hlt : e - c < planet_days y) by lra.
      assert (Hbt : 0 < planet_days y / 9)
        by (apply Qlt_shift_div_l; [reflexivity | lra]).
      assert (Hbt0 : ~ planet_days y / 9 == 0) by lra.
      assert (Hy0 : ~ planet_days y == 0) by lra.
      pose proof (sub_index_bounds _ _ Ha Hlt) as Hidx.
      rewrite (py_div_ok _ _ Hbt0). cbn [bind].
      rewrite py_int_nonneg
        by (apply Qle_shift_div_l; [exact Hbt | lra]).
      destruct (py_index_in_range (dict_keys mahadasha_periods)
                  (Qfloor ((e - c) / (planet_days y / 9)))) as (bl & Hbl & Hnth).
      { exact Hidx. }
      rewrite Hbl. cbn [bind].
      rewrite (py_div_ok _ _ Hy0). cbn [bind].
      rewrite (py_mod_ok _ _ Hbt0). cbn [bind].
      rewrite (py_div_ok _ _ Hbt0). cbn [bind].
      exists [], p, y, rest, c, bl. eexists. eexists.
      split; [reflexivity|]. split; [simpl; lra|].
      split; [reflexivity|]. split; [split; assumption|].
      split; [reflexivity|]. split; [exact Hnth|]. split; [reflexivity|].
      split.
      * apply frac_bounds; assumption.
      * destruct (mod_bounds (e - c) (planet_days y / 9) Hbt).
        apply frac_bounds; assumption.
    + assert (Hge : c + planet_days y <= e).
      { apply Qle_bool_iff in Hc. rewrite Hc in Hcond. simpl in Hcond.
        now apply Qltb_false in Hcond. }
      destruct (IH e (c + planet_days y)) as
        (pre & ml & y' & post & start & bl & mp & bp &
         Hitems & Hstart & Hloop & Hin & Hrest).
      * intros p' y0 Hin. apply (Hpos p'). now right.
      * exact Hge.
      * simpl in He. lra.
      * exists ((p, y) :: pre), ml, y', post, start, bl, mp, bp.
        split; [simpl; now rewrite Hitems|].
        split; [simpl; rewrite Hstart; lra|].
        split; [exact Hloop|]. split; [exact Hin | exact Hrest].
Qed.

Lemma phase_bounds epoch instant :
  0 <= phase epoch instant /\ phase epoch instant < total_mahadasha_days.
Proof.
  unfold phase. apply mod_bounds. reflexivity.
Qed.

(** The phase is the whole-day count reduced modulo the 43830 days of the
    macro-cycle. *)
Lemma phase_mod epoch instant :
  phase epoch instant == inject_Z (elapsed_whole_days epoch instant mod 43830).
Proof.
  unfold phase. set (n := elapsed_whole_days epoch instant).
  assert (E : Qfloor (inject_Z n / total_mahadasha_days) = (n / 43830)%Z).
  { rewrite Zdiv_Qdiv. apply Qfloor_comp.
    rewrite total_mahadasha_days_value. reflexivity. }
  cbv zeta. rewrite E, total_mahadasha_days_value.
  rewrite Z.mod_eq by discriminate.
  unfold Zminus. rewrite inject_Z_plus, inject_Z_opp, inject_Z_mult.
  change (inject_Z 43830) with 43830. ring.
Qed.

(** The cycle resolver on any pair of timestamps: it returns the
    dictionary built inside the loop, for the ruler whose span holds the
    phase. *)
Lemma cycle_state epoch instant :
  exists pre ml y post start bl mp bp,
    mahadasha_periods = pre ++ (ml, y) :: post /\
    start == sum_days pre /\
    calculate_dasha_bhukti epoch instant = Ok (Dasha ml bl mp bp) /\
    (start <= phase epoch instant /\
     phase epoch instant < start + planet_days y) /\
    mp = (phase epoch instant - start) / planet_days y /\
    nth_error ruler_order
      (Z.to_nat (Qfloor ((phase epoch instant - start) / (planet_days y / 9))))
      = Some bl /\
    bp = ((phase epoch instant - start)
          - inject_Z (Qfloor ((phase epoch instant - start) / (planet_days y / 9)))
            * (planet_days y / 9)) / (planet_days y / 9) /\
    (0 <= mp /\ mp < 1) /\ (0 <= bp /\ bp < 1).
Proof.
  destruct (phase_bounds epoch instant) as [H0 HT].
  destruct (dasha_loop_spec mahadasha_periods (phase epoch instant) 0) as
    (pre & ml & y & post & start & bl & mp & bp & Hitems & Hstart & Hloop & Hrest).
  - intros p y Hin. simpl in Hin.
    repeat (destruct Hin as [Hin | Hin];
            [injection Hin as _ <-; reflexivity|]).
    contradiction.
  - exact H0.
  - rewrite total_mahadasha_days_sum. lra.
  - exists pre, ml, y, post, start, bl, mp, bp.
    split; [exact Hitems|]. split; [rewrite Hstart; lra|].
    split; [|exact Hrest].
    unfold calculate_dasha_bhukti.
    rewrite py_mod_ok by (rewrite total_mahadasha_days_value; discriminate).
    cbn [bind]. exact Hloop.
Qed.

(** At zero elapsed whole days the loop stops at its first iteration. *)
Lemma cycle_state_day0 epoch instant :
  elapsed_whole_days epoch instant = 0%Z ->
  exists mp bp,
    calculate_dasha_bhukti epoch instant = Ok (Dasha Ketu Ketu mp bp) /\
    mp == 0 /\ bp == 0.
Proof.
  intros H. unfold calculate_dasha_bhukti.
  unfold elapsed_whole_days in H. rewrite H.
  eexists. eexists. split; [vm_compute; reflexivity|].
  split; reflexivity.
Qed.

(** C3: for every pair of timestamps with [instant >= epoch] the cycle
    resolver succeeds with the dictionary built inside the loop, so the
    final fallback [return] (which lacks the progress fields) is never
    reached; [mahadasha_progress] and [bhukti_progress] both lie in [0, 1);
    and the nine major-ruler spans sum exactly to the macro-cycle length
    used for the modulo. *)
Theorem cycle_conservation (epoch instant : datetime)
    (H : (epoch <= instant)%Z) :
  (exists ml bl mp bp,
     calculate_dasha_bhukti epoch instant = Ok (Dasha ml bl mp bp) /\
     (0 <= mp /\ mp < 1) /\ (0 <= bp /\ bp < 1)) /\
  (forall ml bl p,
     calculate_dasha_bhukti epoch instant <> Ok (DashaFallback ml bl p)) /\
  List.length mahadasha_periods = 9%nat /\
  sum_days mahadasha_periods == total_mahadasha_days.
Proof.
  destruct (cycle_state epoch instant) as
    (pre & ml & y & post & start & bl & mp & bp &
     _ & _ & Hcall & _ & _ & _ & _ & Hmp & Hbp).
  split; [exists ml, bl, mp, bp; repeat split; solve [assumption | apply Hmp | apply Hbp]|].
  split; [intros ml' bl' p; rewrite Hcall; discriminate|].
  split; [reflexivity | exact total_mahadasha_days_sum].
Qed.

Lemma cycle_conservation_witness :
  (market_birth <= mk_datetime 2025 11 4 9 15)%Z /\
  exists ml bl mp bp,
    calculate_dasha_bhukti market_birth (mk_datetime 2025 11 4 9 15)
      = Ok (Dasha ml bl mp bp) /\
    (0 <= mp /\ mp < 1) /\ (0 <= bp /\ bp < 1).
Proof.
  assert (H : (market_birth <= mk_datetime 2025 11 4 9 15)%Z)
    by (vm_compute; discriminate).
  split; [exact H|].
  exact (proj1 (cycle_conservation market_birth (mk_datetime 2025 11 4 9 15) H)).
Defined.

(** C5: for every [instant >= epoch] the sub ruler is the ruler at index
    [floor(elapsedWithinMajor / (majorLengthDays / 9))] of the fixed order
    Ketu, Venus, Sun, Moon, Mars, Rahu, Jupiter, Saturn, Mercury, counted
    from Ketu whatever the major ruler is; at zero elapsed days the major
    ruler and the sub ruler are both Ketu and both progress values are 0. *)
Theorem sub_ruler_fixed_order (epoch instant : datetime)
    (H : (epoch <= instant)%Z) :
  (exists pre ml y post bl mp bp,
     mahadasha_periods = pre ++ (ml, y) :: post /\
     calculate_dasha_bhukti epoch instant = Ok (Dasha ml bl mp bp) /\
     let within := phase epoch instant - sum_days pre in
     (0 <= within /\ within < planet_days y) /\
     nth_error ruler_order
       (Z.to_nat (Qfloor (within / (planet_days y / 9)))) = Some bl) /\
  dict_keys mahadasha_periods = ruler_order /\
  hd_error ruler_order = Some Ketu /\
  (elapsed_whole_days epoch instant = 0%Z ->
   exists mp bp,
     calculate_dasha_bhukti epoch instant = Ok (Dasha Ketu Ketu mp bp) /\
     mp == 0 /\ bp == 0).
Proof.
  split; [|split; [exact ruler_order_keys
                   | split; [reflexivity | apply cycle_state_day0]]].
  destruct (cycle_state epoch instant) as
    (pre & ml & y & post & start & bl & mp & bp &
     Hitems & Hstart & Hcall & [Hlo Hhi] & _ & Hnth & _).
  exists pre, ml, y, post, bl, mp, bp.
  split; [exact Hitems|]. split; [exact Hcall|]. cbv zeta.
  split; [split; lra|].
  rewrite <- Hnth. do 2 f_equal. apply Qfloor_comp.
  rewrite Hstart. reflexivity.
Qed.

Lemma sub_ruler_fixed_order_witness :
  (market_birth <= market_birth + minutes 90)%Z /\
  exists mp bp,
    calculate_dasha_bhukti market_birth (market_birth + minutes 90)%Z
      = Ok (Dasha Ketu Ketu mp bp) /\
    mp == 0 /\ bp == 0.
Proof.
  assert (H : (market_birth <= market_birth + minutes 90)%Z)
    by (vm_compute; discriminate).
  split; [exact H|].
  apply (proj2 (proj2 (proj2
           (sub_ruler_fixed_order market_birth (market_birth + minutes 90)%Z H)))).
  vm_compute. reflexivity.
Defined.

(** C8, as stated, fails: one microsecond before the epoch the resolver
    returns a cycle state instead of raising. *)
Lemma before_epoch_no_error :
  ~ (forall epoch instant : datetime, (instant < epoch)%Z ->
       exists e, calculate_dasha_bhukti epoch instant = Raise e).
Proof.
  intros H. destruct (H market_birth (market_birth - 1)%Z) as [e He].
  - vm_compute. reflexivity.
  - vm_compute in He. discriminate He.
Qed.

(** C8, amended: for every instant strictly before the epoch the cycle
    resolver does not fail.  The negative whole-day count is wrapped by the
    modulo into [0, 43830), and the call returns the cycle state of the
    major ruler whose span holds that wrapped phase, with both progress
    values in [0, 1). *)
Theorem before_epoch_wraps (epoch instant : datetime)
    (H : (instant < epoch)%Z) :
  (elapsed_whole_days epoch instant < 0)%Z /\
  phase epoch instant == inject_Z (elapsed_whole_days epoch instant mod 43830) /\
  (0 <= phase epoch instant /\ phase epoch instant < 43830) /\
  exists pre ml y post bl mp bp,
    mahadasha_periods = pre ++ (ml, y) :: post /\
    calculate_dasha_bhukti epoch instant = Ok (Dasha ml bl mp bp) /\
    (sum_days pre <= phase epoch instant /\
     phase epoch instant < sum_days pre + planet_days y) /\
    (0 <= mp /\ mp < 1) /\ (0 <= bp /\ bp < 1).
Proof.
  split.
  { unfold elapsed_whole_days, timedelta_days.
    apply Z.div_lt_upper_bound; [reflexivity | lia]. }
  split; [apply phase_mod|].
  split.
  { rewrite <- total_mahadasha_days_value. apply phase_bounds. }
  destruct (cycle_state epoch instant) as
    (pre & ml & y & post & start & bl & mp & bp &
     Hitems & Hstart & Hcall & [Hlo Hhi] & _ & _ & _ & Hmp & Hbp).
  exists pre, ml, y, post, bl, mp, bp.
  split; [exact Hitems|]. split; [exact Hcall|].
  split; [split; lra|]. split; assumption.
Qed.

Lemma before_epoch_wraps_witness :
  (market_birth - 1 < market_birth)%Z /\
  (elapsed_whole_days market_birth (market_birth - 1) < 0)%Z /\
  phase market_birth (market_birth - 1)%Z == 43829.
Proof.
  assert (H : (market_birth - 1 < market_birth)%Z) by (vm_compute; reflexivity).
  split; [exact H|].
  destruct (before_epoch_wraps market_birth (market_birth - 1)%Z H)
    as (Hneg & Hphase & _).
  split; [exact Hneg|].
  rewrite Hphase. vm_compute. reflexivity.
Defined.

(** ** The influence scorer *)

Lemma Direction_eqb_eq (a b : Direction) : Direction_eqb a b = true <-> a = b.
Proof. destruct a, b; simpl; split; intros H; congruence. Qed.

Lemma py_min_Qmin (a b : Q) : py_min a b == Qmin a b.
Proof.
  unfold py_min. destruct (Qltb b a) eqn:E.
  - apply Qltb_true in E. symmetry. apply Q.min_r. now apply Qlt_le_weak.
  - apply Qltb_false in E. symmetry. now apply Q.min_l.
Qed.

Lemma aligned_eqb (m s n : Influence) :
  Direction_eqb (direction m) (direction s)
  && Direction_eqb (direction s) (direction n) = true <-> aligned m s n.
Proof.
  unfold aligned. now rewrite andb_true_iff, !Direction_eqb_eq.
Qed.

(** C7: the combined influence score is the weighted volatility blend
    [0.4*major + 0.3*sub + 0.3*segment], multiplied by 1.3 and capped at 1.0
    exactly when the three directions are identical (volatilities being at
    most 1, as the ruler attributes are); with all directions bullish and
    volatilities 0.2, 0.3, 0.3 the blend is 0.26 and the score is
    [min(1.0, 0.26*1.3) = 0.338]. *)
Theorem combined_score_alignment_boost (major sub segment : Influence)
    (Hmajor : volatility major <= 1) (Hsub : volatility sub <= 1)
    (Hsegment : volatility segment <= 1) :
  (aligned major sub segment ->
   calculate_combined_score major sub segment
     == Qmin 1 (blend major sub segment * 1.3)) /\
  (~ aligned major sub segment ->
   calculate_combined_score major sub segment == blend major sub segment) /\
  (direction major = bullish -> direction sub = bullish ->
   direction segment = bullish ->
   volatility major == 0.2 -> volatility sub == 0.3 ->
   volatility segment == 0.3 ->
   blend major sub segment == 0.26 /\
   calculate_combined_score major sub segment == Qmin 1 (0.26 * 1.3) /\
   calculate_combined_score major sub segment == 0.338).
Proof.
  assert (Hbase : volatility major * 0.4 + volatility sub * 0.3
                  + volatility segment * 0.3 == blend major sub segment)
    by (unfold blend; ring).
  assert (Hyes : aligned major sub segment ->
                 calculate_combined_score major sub segment
                   == Qmin 1 (blend major sub segment * 1.3)).
  { intros Ha. unfold calculate_combined_score.
    apply aligned_eqb in Ha. rewrite Ha.
    rewrite py_min_Qmin, Hbase.
    assert (E : 1.0 == 1) by reflexivity. rewrite E. reflexivity. }
  split; [exact Hyes|]. split.
  - intros Hna. unfold calculate_combined_score.
    destruct (Direction_eqb (direction major) (direction sub)
              && Direction_eqb (direction sub) (direction segment)) eqn:E.
    + apply aligned_eqb in E. contradiction.
    + rewrite py_min_Qmin, Hbase.
      apply Q.min_r. unfold blend.
      assert (E1 : 1.0 == 1) by reflexivity. rewrite E1. lra.
  - intros Dm Ds Dn Vm Vs Vn.
    assert (Hb : blend major sub segment == 0.26)
      by (unfold blend; rewrite Vm, Vs, Vn; reflexivity).
    split; [exact Hb|].
    assert (Ha : aligned major sub segment) by (split; congruence).
    split.
    + rewrite (Hyes Ha), Hb. reflexivity.
    + rewrite (Hyes Ha), Hb. reflexivity.
Qed.

Lemma combined_score_alignment_boost_witness :
  blend (mkInfluence 0.2 bullish "expansion_growth")
        (mkInfluence 0.3 bullish "steady_growth")
        (mkInfluence 0.3 bullish "steady_growth") == 0.26 /\
  calculate_combined_score
        (mkInfluence 0.2 bullish "expansion_growth")
        (mkInfluence 0.3 bullish "steady_growth")
        (mkInfluence 0.3 bullish "steady_growth") == 0.338.
Proof.
  destruct (combined_score_alignment_boost
              (mkInfluence 0.2 bullish "expansion_growth")
              (mkInfluence 0.3 bullish "steady_growth")
              (mkInfluence 0.3 bullish "steady_growth"))
    as (_ & _ & Hex); try (vm_compute; discriminate).
  destruct Hex as (Hb & _ & Hs); try reflexivity.
  split; [exact Hb | exact Hs].
Defined.

(** ** The session aggregator *)

Lemma high_vol_count_filter (records : list Prediction) :
  py_len (filter (fun p => Qltb 0.7 (predicted_volatility p)) records)
  = high_vol_count records.
Proof.
  unfold py_len. induction records as [|r rest IH]; [reflexivity|].
  simpl filter. simpl high_vol_count.
  destruct (Qlt_le_dec 0.7 (predicted_volatility r)) as [Hlt | Hle].
  - apply Qltb_true in Hlt. rewrite Hlt. simpl List.length.
    rewrite Nat2Z.inj_succ, IH. lia.
  - apply Qltb_false in Hle. rewrite Hle. rewrite IH. lia.
Qed.

Lemma py_len_nonzero {A : Type} (l : list A) :
  l <> [] -> ~ inject_Z (py_len l) == 0.
Proof.
  intros Hl E. destruct l as [|a l]; [contradiction|].
  unfold py_len, Qeq in E. cbn [inject_Z Qnum Qden List.length] in E. lia.
Qed.

(** C1: on the empty record sequence [predict_session_outcome] and
    [assess_session_risk] raise [ZeroDivisionError] (they divide by
    [len(predictions)] unguarded), whereas [identify_key_periods] and
    [get_dominant_influences] return empty lists.  The empty sequence is
    what the generator returns for an inverted window. *)
Theorem empty_session_raises :
  predict_session_outcome [] = Raise ZeroDivisionError /\
  assess_session_risk [] = Raise ZeroDivisionError /\
  identify_key_periods [] = [] /\
  get_dominant_influences [] = Ok [] /\
  forall moon_ra_degrees,
    generate_minute_level_predictions moon_ra_degrees
      (mk_datetime 2025 11 4 9 15) (mk_datetime 2025 11 4 9 14)
    = Some (Ok []).
Proof.
  split; [reflexivity|]. split; [reflexivity|].
  split; [reflexivity|]. split; [reflexivity|].
  intros moon_ra_degrees. reflexivity.
Qed.

Ltac bucket_cases :=
  repeat split; intros;
  repeat match goal with H : _ /\ _ |- _ => destruct H end;
  first [reflexivity | discriminate | assumption | lra | exfalso; lra].

(** C6: for every non-empty record sequence the risk bucket is HIGH iff the
    ratio of records with volatility > 0.7 exceeds 0.3, MEDIUM iff that
    ratio exceeds 0.15 but not 0.3, and LOW otherwise, the inequalities
    being strict: a ratio of exactly 31% gives HIGH and one of exactly 15%
    gives LOW. *)
Theorem risk_bucket_thresholds (records : list Prediction)
    (Hne : records <> []) :
  exists r, assess_session_risk records = Ok r /\
    (level r = HIGH <-> 0.3 < high_vol_ratio records) /\
    (level r = MEDIUM <->
       0.15 < high_vol_ratio records /\ high_vol_ratio records <= 0.3) /\
    (level r = LOW <-> high_vol_ratio records <= 0.15) /\
    (high_vol_ratio records == 0.31 -> level r = HIGH) /\
    (high_vol_ratio records == 0.15 -> level r = LOW) /\
    (high_vol_ratio records == 0.3 -> level r = MEDIUM).
Proof.
  unfold assess_session_risk.
  rewrite high_vol_count_filter.
  rewrite (py_div_ok _ _ (py_len_nonzero records Hne)). cbn [bind].
  change (inject_Z (high_vol_count records) / inject_Z (py_len records))
    with (high_vol_ratio records).
  generalize (high_vol_ratio records). intros ratio.
  destruct (Qltb 0.3 ratio) eqn:E3.
  - apply Qltb_true in E3. eexists. split; [reflexivity|]. simpl level.
    bucket_cases.
  - apply Qltb_false in E3. destruct (Qltb 0.15 ratio) eqn:E15.
    + apply Qltb_true in E15. eexists. split; [reflexivity|]. simpl level.
      bucket_cases.
    + apply Qltb_false in E15. eexists. split; [reflexivity|]. simpl level.
      bucket_cases.
Qed.

Lemma risk_bucket_thresholds_witness :
  (exists r,
     assess_session_risk
       (repeat (sample_record 0.9 bearish) 31
        ++ repeat (sample_record 0.2 bullish) 69) = Ok r /\
     level r = HIGH) /\
  (exists r,
     assess_session_risk
       (repeat (sample_record 0.9 bearish) 15
        ++ repeat (sample_record 0.2 bullish) 85) = Ok r /\
     level r = LOW).
Proof.
  split.
  - destruct (risk_bucket_thresholds
                (repeat (sample_record 0.9 bearish) 31
                 ++ repeat (sample_record 0.2 bullish) 69))
      as (r & Hr & _ & _ & _ & H31 & _).
    + simpl. discriminate.
    + exists r. split; [exact Hr|]. apply H31. vm_compute. reflexivity.
  - destruct (risk_bucket_thresholds
                (repeat (sample_record 0.9 bearish) 15
                 ++ repeat (sample_record 0.2 bullish) 85))
      as (r & Hr & _ & _ & _ & _ & H15 & _).
    + simpl. discriminate.
    + exists r. split; [exact Hr|]. apply H15. vm_compute. reflexivity.
Defined.

(** ** Insertion-ordered dictionaries of counters *)

Section DictFacts.
Context {K : Type} (eqb : K -> K -> bool).
Hypothesis eqb_eq : forall a b, eqb a b = true <-> a = b.

Lemma eqb_refl a : eqb a a = true.
Proof. now apply eqb_eq. Qed.

Lemma eqb_neq a b : eqb a b = false <-> a <> b.
Proof.
  split.
  - intros E ->. rewrite eqb_refl in E. discriminate.
  - intros N. destruct (eqb a b) eqn:E; [|reflexivity].
    apply eqb_eq in E. contradiction.
Qed.

Lemma key_dec (a b : K) : {a = b} + {a <> b}.
Proof.
  destruct (eqb a b) eqn:E.
  - left. now apply eqb_eq.
  - right. now apply eqb_neq.
Qed.

Lemma dict_get_set {V : Type} (d : list (K * V)) k v k' dflt :
  dict_get eqb (dict_set eqb d k v) k' dflt
  = if eqb k' k then v else dict_get eqb d k' dflt.
Proof.
  induction d as [|[k1 v1] t IH]; simpl.
  - reflexivity.
  - destruct (eqb k k1) eqn:E; simpl.
    + apply eqb_eq in E. subst k1. destruct (eqb k' k); reflexivity.
    + rewrite IH. destruct (eqb k' k1) eqn:E1; [|reflexivity].
      apply eqb_eq in E1. subst k1.
      apply eqb_neq in E. destruct (eqb k' k) eqn:E2; [|reflexivity].
      apply eqb_eq in E2. subst k'. contradiction.
Qed.

Lemma dict_keys_set_in {V : Type} (d : list (K * V)) k v :
  In k (dict_keys d) -> dict_keys (dict_set eqb d k v) = dict_keys d.
Proof.
  induction d as [|[k1 v1] t IH]; simpl; intros Hin; [contradiction|].
  destruct (eqb k k1) eqn:E; simpl; [reflexivity|].
  f_equal. apply IH. destruct Hin as [->|Hin]; [|exact Hin].
  rewrite eqb_refl in E. discriminate.
Qed.

Lemma dict_keys_set_notin {V : Type} (d : list (K * V)) k v :
  ~ In k (dict_keys d) -> dict_keys (dict_set eqb d k v) = dict_keys d ++ [k].
Proof.
  induction d as [|[k1 v1] t IH]; simpl; intros Hnin; [reflexivity|].
  destruct (eqb k k1) eqn:E; simpl.
  - apply eqb_eq in E. subst k1. exfalso. apply Hnin. now left.
  - f_equal. apply IH. intros Hin. apply Hnin. now right.
Qed.

Lemma dict_get_in_nodup {V : Type} (d : list (K * V)) k v dflt :
  NoDup (dict_keys d) -> In (k, v) d -> dict_get eqb d k dflt = v.
Proof.
  induction d as [|[k1 v1] t IH]; simpl; intros Hnd Hin; [contradiction|].
  inversion Hnd as [|? ? Hnot Hnd']; subst.
  destruct Hin as [Heq | Hin].
  - injection Heq as -> ->. now rewrite eqb_refl.
  - assert (Hk : k <> k1).
    { intros ->. apply Hnot. apply (in_map fst) in Hin. exact Hin. }
    apply eqb_neq in Hk. rewrite Hk. now apply IH.
Qed.

Lemma dict_lookup_get {V : Type} (d : list (K * V)) k dflt :
  In k (dict_keys d) -> dict_lookup eqb d k = Ok (dict_get eqb d k dflt).
Proof.
  induction d as [|[k1 v1] t IH]; simpl; intros Hin; [contradiction|].
  destruct (eqb k k1) eqn:E; [reflexivity|].
  apply IH. destruct Hin as [->|Hin]; [|exact Hin].
  rewrite eqb_refl in E. discriminate.
Qed.

Lemma nodup_split_unique (a a' b b' : list K) w :
  NoDup (a ++ w :: b) -> a ++ w :: b = a' ++ w :: b' -> a = a'.
Proof.
  revert a'. induction a as [|x a IH]; intros a' Hnd Heq.
  - destruct a' as [|y a']; [reflexivity|]. simpl in Heq.
    injection Heq as <- ->. inversion Hnd as [|? ? Hnot _]; subst.
    exfalso. apply Hnot. apply in_or_app. right. now left.
  - destruct a' as [|y a']; simpl in Heq.
    + injection Heq as -> _. inversion Hnd as [|? ? Hnot _]; subst.
      exfalso. apply Hnot. apply in_or_app. right. now left.
    + injection Heq as <- Heq. f_equal. apply IH; [|exact Heq].
      now inversion Hnd.
Qed.

Lemma in_split_first (w : K) (l : list K) :
  In w l -> exists pre post, l = pre ++ w :: post /\ ~ In w pre.
Proof.
  induction l as [|h t IH]; intros Hin; [contradiction|].
  destruct (key_dec h w) as [->|Hne].
  - exists [], t. split; [reflexivity | intros []].
  - destruct Hin as [Heq|Hin]; [contradiction|].
    destruct (IH Hin) as (pre & post & -> & Hnot).
    exists (h :: pre), post. split; [reflexivity|].
    intros [Heq|Hin']; [contradiction | now apply Hnot].
Qed.

(** One step of the counting loop. *)
Lemma count_up_get (d : list (K * Z)) k k' :
  dict_get eqb (count_up eqb d k) k' 0%Z
  = (dict_get eqb d k' 0 + if eqb k' k then 1 else 0)%Z.
Proof.
  unfold count_up. rewrite dict_get_set.
  destruct (eqb k' k) eqn:E; [|lia].
  apply eqb_eq in E. now subst k'.
Qed.

Lemma count_up_keys (d : list (K * Z)) k :
  (In k (dict_keys d) /\ dict_keys (count_up eqb d k) = dict_keys d) \/
  (~ In k (dict_keys d) /\ dict_keys (count_up eqb d k) = dict_keys d ++ [k]).
Proof.
  unfold count_up. destruct (in_dec key_dec k (dict_keys d)) as [Hin|Hnin].
  - left. split; [exact Hin | now apply dict_keys_set_in].
  - right. split; [exact Hnin | now apply dict_keys_set_notin].
Qed.

(** The whole counting loop: values are occurrence counts, keys are kept in
    order of first insertion. *)
Lemma tally_get (l : list K) : forall (d : list (K * Z)) k,
  dict_get eqb (fold_left (count_up eqb) l d) k 0%Z
  = (dict_get eqb d k 0 + occurrences eqb k l)%Z.
Proof.
  induction l as [|h t IH]; intros d k; simpl.
  - lia.
  - rewrite IH, count_up_get. lia.
Qed.

Lemma tally_keys (l : list K) : forall d : list (K * Z),
  NoDup (dict_keys d) ->
  NoDup (dict_keys (fold_left (count_up eqb) l d)) /\
  (exists ext, dict_keys (fold_left (count_up eqb) l d) = dict_keys d ++ ext) /\
  (forall k, In k (dict_keys (fold_left (count_up eqb) l d))
             <-> In k (dict_keys d) \/ In k l).
Proof.
  induction l as [|h t IH]; intros d Hnd; simpl.
  - split; [exact Hnd|]. split; [exists []; now rewrite app_nil_r|].
    intros k. tauto.
  - assert (Hstep : NoDup (dict_keys (count_up eqb d h)) /\
                    (exists e, dict_keys (count_up eqb d h) = dict_keys d ++ e) /\
                    (forall k, In k (dict_keys (count_up eqb d h))
                               <-> In k (dict_keys d) \/ h = k)).
    { destruct (count_up_keys d h) as [[Hin ->] | [Hnin ->]].
      - split; [exact Hnd|]. split; [exists []; now rewrite app_nil_r|].
        intros k. split; [tauto|]. intros [H|<-]; assumption.
      - split.
        + apply NoDup_app; [exact Hnd | repeat constructor; intros [] |].
          intros x Hx [<-|[]]. contradiction.
        + split; [now exists [h]|].
          intros k. rewrite in_app_iff. simpl. tauto. }
    destruct Hstep as (Hnd1 & [e1 He1] & Hin1).
    destruct (IH _ Hnd1) as (Hnd2 & [e2 He2] & Hin2).
    split; [exact Hnd2|]. split.
    + exists (e1 ++ e2). rewrite He2, He1. now rewrite app_assoc.
    + intros k. rewrite Hin2, Hin1. tauto.
Qed.

End DictFacts.

(** [max(d, key=d.get)] returns the first entry holding the largest value:
    everything before it is strictly smaller, everything after it is at most
    as large. *)
Lemma max_key_from_spec {K : Type} (l : list (K * Z)) :
  forall pre best bv mid,
  (forall k v, In (k, v) pre -> (v < bv)%Z) ->
  (forall k v, In (k, v) mid -> (v <= bv)%Z) ->
  exists e1 v e2,
    pre ++ (best, bv) :: mid ++ l = e1 ++ (max_key_from best bv l, v) :: e2 /\
    (forall k v', In (k, v') e1 -> (v' < v)%Z) /\
    (forall k v', In (k, v') e2 -> (v' <= v)%Z).
Proof.
  induction l as [|[k v] t IH]; intros pre best bv mid Hpre Hmid.
  - exists pre, bv, mid. rewrite app_nil_r. simpl. auto.
  - simpl. destruct (bv <? v)%Z eqn:E.
    + apply Z.ltb_lt in E.
      destruct (IH (pre ++ (best, bv) :: mid) k v []) as (e1 & v' & e2 & Heq & H1 & H2).
      * intros k' v' Hin. apply in_app_or in Hin.
        destruct Hin as [Hin | [Heq | Hin]].
        -- specialize (Hpre _ _ Hin). lia.
        -- injection Heq as _ <-. exact E.
        -- specialize (Hmid _ _ Hin). lia.
      * intros k' v' [].
      * exists e1, v', e2. split; [|split; assumption].
        rewrite <- Heq. rewrite <- app_assoc. reflexivity.
    + apply Z.ltb_ge in E.
      destruct (IH pre best bv (mid ++ [(k, v)])) as (e1 & v' & e2 & Heq & H1 & H2).
      * exact Hpre.
      * intros k' v' Hin. apply in_app_or in Hin.
        destruct Hin as [Hin | [Heq | []]].
        -- now apply (Hmid k').
        -- injection Heq as _ <-. exact E.
      * exists e1, v', e2. split; [|split; assumption].
        rewrite <- Heq. rewrite <- app_assoc. reflexivity.
Qed.

Lemma py_max_key_spec {K : Type} (d : list (K * Z)) :
  d <> [] ->
  exists w e1 v e2,
    py_max_key d = Ok w /\ d = e1 ++ (w, v) :: e2 /\
    (forall k v', In (k, v') e1 -> (v' < v)%Z) /\
    (forall k v', In (k, v') e2 -> (v' <= v)%Z).
Proof.
  destruct d as [|[k0 v0] t]; intros Hne; [contradiction|].
  destruct (max_key_from_spec t [] k0 v0 []) as (e1 & v & e2 & Heq & H1 & H2).
  - intros ? ? [].
  - intros ? ? [].
  - exists (max_key_from k0 v0 t), e1, v, e2. simpl in Heq. auto.
Qed.

Lemma outcome_loop_counts (records : list Prediction) :
  forall d v,
  fst (outcome_loop records d v)
  = fold_left (count_up Direction_eqb) (directions records) d.
Proof.
  induction records as [|r rest IH]; intros d v; simpl; [reflexivity|].
  apply IH.
Qed.

Lemma occurrences_nonneg {K : Type} (eqb : K -> K -> bool) k (l : list K) :
  (0 <= occurrences eqb k l)%Z.
Proof.
  induction l as [|h t IH]; simpl; [lia|]. destruct (eqb k h); lia.
Qed.

Section TallyWinner.
Context {K : Type} (eqb : K -> K -> bool).
Hypothesis eqb_eq : forall a b, eqb a b = true <-> a = b.

Lemma dict_get_notin (d : list (K * Z)) k dflt :
  ~ In k (dict_keys d) -> dict_get eqb d k dflt = dflt.
Proof.
  induction d as [|[k1 v1] t IH]; simpl; intros Hnin; [reflexivity|].
  destruct (eqb k k1) eqn:E.
  - apply eqb_eq in E. subst k1. exfalso. apply Hnin. now left.
  - apply IH. intros Hin. apply Hnin. now right.
Qed.

Lemma key_entry (d : list (K * Z)) k :
  In k (dict_keys d) -> exists v, In (k, v) d.
Proof.
  unfold dict_keys. intros Hin. apply in_map_iff in Hin.
  destruct Hin as ([k' v] & Hk & Hin). simpl in Hk. subst k'. now exists v.
Qed.

(** The key chosen by [max] over a dictionary of counters built by the
    counting loop from the empty dictionary: it has the largest count, and
    every key seen earlier in the input has a strictly smaller one. *)
Lemma first_seen_winner (l : list K) :
  l <> [] ->
  exists w,
    py_max_key (fold_left (count_up eqb) l []) = Ok w /\
    dict_lookup eqb (fold_left (count_up eqb) l []) w = Ok (occurrences eqb w l) /\
    (forall k, (occurrences eqb k l <= occurrences eqb w l)%Z) /\
    exists pre post,
      l = pre ++ w :: post /\ ~ In w pre /\
      forall k, In k pre -> (occurrences eqb k l < occurrences eqb w l)%Z.
Proof.
  intros Hne. set (D := fold_left (count_up eqb) l []).
  destruct (tally_keys eqb eqb_eq l [] (NoDup_nil _)) as (Hnd & _ & Hin).
  fold D in Hnd, Hin.
  assert (Hget : forall k, dict_get eqb D k 0%Z = occurrences eqb k l).
  { intros k. unfold D. rewrite (tally_get eqb eqb_eq). reflexivity. }
  assert (HD : D <> []).
  { destruct l as [|h t]; [contradiction|].
    intros E. assert (Hh : In h (dict_keys D)) by (apply Hin; right; now left).
    rewrite E in Hh. exact Hh. }
  destruct (py_max_key_spec D HD) as (w & e1 & v & e2 & Hmax & HDeq & H1 & H2).
  assert (Hwv : In (w, v) D) by (rewrite HDeq; apply in_or_app; right; now left).
  assert (Hentry : forall k v', In (k, v') D -> v' = occurrences eqb k l).
  { intros k v' Hk. rewrite <- Hget.
    symmetry. now apply (dict_get_in_nodup eqb eqb_eq). }
  assert (Hv : v = occurrences eqb w l) by now apply Hentry.
  assert (Hwkey : In w (dict_keys D)).
  { apply (in_map fst) in Hwv. exact Hwv. }
  exists w. split; [exact Hmax|]. split.
  { rewrite (dict_lookup_get eqb eqb_eq D w 0%Z Hwkey). now rewrite Hget. }
  split.
  { intros k. destruct (in_dec (key_dec eqb eqb_eq) k (dict_keys D)) as [Hk|Hk].
    - destruct (key_entry D k Hk) as [v' Hv'].
      rewrite <- (Hentry _ _ Hv'), <- Hv.
      rewrite HDeq in Hv'. apply in_app_or in Hv'.
      destruct Hv' as [Hv' | [Heq | Hv']].
      + specialize (H1 _ _ Hv'). lia.
      + injection Heq as _ <-. lia.
      + now apply (H2 k).
    - rewrite <- (Hget k), (dict_get_notin D k 0%Z Hk).
      apply occurrences_nonneg. }
  assert (Hwl : In w l).
  { apply Hin in Hwkey. destruct Hwkey as [[]|Hw]. exact Hw. }
  destruct (in_split_first eqb eqb_eq w l Hwl) as (pre & post & Hl & Hfirst).
  exists pre, post. split; [exact Hl|]. split; [exact Hfirst|].
  destruct (tally_keys eqb eqb_eq pre [] (NoDup_nil _)) as (Hnd1 & _ & Hin1).
  set (D1 := fold_left (count_up eqb) pre []) in *.
  assert (Hw1 : ~ In w (dict_keys D1)).
  { intros Hw. apply Hin1 in Hw. destruct Hw as [[]|Hw]. contradiction. }
  assert (Hkeys2 : dict_keys (count_up eqb D1 w) = dict_keys D1 ++ [w]).
  { destruct (count_up_keys eqb eqb_eq D1 w) as [[Hw _] | [_ E]];
      [contradiction | exact E]. }
  destruct (tally_keys eqb eqb_eq [w] D1 Hnd1) as (Hnd2 & _ & _).
  simpl in Hnd2.
  destruct (tally_keys eqb eqb_eq post (count_up eqb D1 w) Hnd2)
    as (_ & [ext Hext] & _).
  assert (HDsplit : dict_keys D = dict_keys D1 ++ w :: ext).
  { unfold D. rewrite Hl, fold_left_app. simpl fold_left.
    fold D1. rewrite Hext, Hkeys2, <- app_assoc. reflexivity. }
  assert (Hkeq : dict_keys D = dict_keys e1 ++ w :: dict_keys e2).
  { rewrite HDeq. unfold dict_keys. rewrite map_app. reflexivity. }
  assert (He1 : dict_keys e1 = dict_keys D1).
  { apply (nodup_split_unique _ _ (dict_keys e2) ext w).
    - rewrite <- Hkeq. exact Hnd.
    - rewrite <- Hkeq. exact HDsplit. }
  intros k Hk.
  assert (Hk1 : In k (dict_keys e1)).
  { rewrite He1. apply Hin1. now right. }
  destruct (key_entry e1 k Hk1) as [v' Hv'].
  assert (HkD : In (k, v') D) by (rewrite HDeq; apply in_or_app; now left).
  rewrite <- (Hentry _ _ HkD), <- Hv. now apply (H1 k).
Qed.

End TallyWinner.

(** C2, as stated, fails: with one bearish record followed by one bullish
    record both directions have count 1; the code answers bearish, the
    first seen, where the declared enumeration order would give bullish. *)
Lemma enum_order_tie_break_fails :
  ~ (forall records, records <> [] ->
       exists r, predict_session_outcome records = Ok r /\
         (forall d, (direction_count d records
                     <= direction_count (overall_direction r) records)%Z) /\
         enum_order_winner records = Ok (overall_direction r)).
Proof.
  intros H.
  destruct (H [sample_record 0.5 bearish; sample_record 0.5 bullish])
    as (r & Hr & _ & Hw); [discriminate|].
  vm_compute in Hr. injection Hr as <-.
  vm_compute in Hw. discriminate Hw.
Qed.

(** C2, amended: for every non-empty record sequence the overall direction
    chosen by [predict_session_outcome] is a direction with the maximum
    count over all records, and whenever two or more directions share that
    maximum the winner is the one that occurs first in the record sequence
    (every direction seen before the winner's first record has a strictly
    smaller count); the confidence is the winner's count over the number of
    records. *)
Theorem overall_direction_first_seen (records : list Prediction)
    (Hne : records <> []) :
  exists r, predict_session_outcome records = Ok r /\
    (forall d, (direction_count d records
                <= direction_count (overall_direction r) records)%Z) /\
    (exists pre post,
       directions records = pre ++ overall_direction r :: post /\
       ~ In (overall_direction r) pre /\
       forall d, In d pre ->
         (direction_count d records
          < direction_count (overall_direction r) records)%Z) /\
    confidence r
    == inject_Z (direction_count (overall_direction r) records)
       / inject_Z (py_len records).
Proof.
  assert (Hdirs : directions records <> []).
  { destruct records; [contradiction | discriminate]. }
  destruct (first_seen_winner Direction_eqb Direction_eqb_eq _ Hdirs)
    as (w & Hmax & Hlook & Hbig & Hfirst).
  unfold predict_session_outcome.
  pose proof (outcome_loop_counts records [] 0) as Hloop.
  destruct (outcome_loop records [] 0) as [D tv]. simpl in Hloop. subst D.
  rewrite (py_div_ok _ _ (py_len_nonzero records Hne)). cbn [bind].
  rewrite Hmax. cbn [bind]. rewrite Hlook. cbn [bind].
  rewrite (py_div_ok _ _ (py_len_nonzero records Hne)). cbn [bind].
  eexists. split; [reflexivity|]. cbn [overall_direction confidence].
  split; [exact Hbig|]. split; [exact Hfirst | reflexivity].
Qed.

Lemma overall_direction_first_seen_witness :
  exists r,
    predict_session_outcome
      [sample_record 0.5 bearish; sample_record 0.5 bullish] = Ok r /\
    overall_direction r = bearish.
Proof.
  destruct (overall_direction_first_seen
              [sample_record 0.5 bearish; sample_record 0.5 bullish])
    as (r & Hr & _); [discriminate|].
  exists r. split; [exact Hr|].
  vm_compute in Hr. injection Hr as <-. reflexivity.
Defined.

(** ** The sequence generator *)

Lemma planet_influences_total (p : Planet) :
  exists i, dict_lookup Planet_eqb planet_influences p = Ok i.
Proof. destruct p; eexists; reflexivity. Qed.

Lemma nakshatra_span_nonzero (n : Nakshatra) :
  In n nakshatras -> ~ snd (range n) - fst (range n) == 0.
Proof.
  intros Hn E. destruct (nakshatras_span_bounds n Hn) as (Hlo & _ & _).
  unfold span in Hlo. rewrite E in Hlo. discriminate Hlo.
Qed.

Lemma direction_vote_ok (a b c : Direction) :
  exists d w,
    tally Direction_eqb
      [(bullish, 0); (bearish, 0); (neutral, 0); (uncertain, 0)]%Z [a; b; c]
      = Ok d /\
    py_max_key d = Ok w.
Proof. destruct a, b, c; eexists; eexists; split; reflexivity. Qed.

Lemma detect_key_events_ok n ml bl mp bp progress :
  exists events, detect_key_events n (Dasha ml bl mp bp) progress = Ok events.
Proof. unfold detect_key_events. cbn [dasha_mahadasha_progress
  dasha_bhukti_progress bind]. eexists. reflexivity. Qed.

(** One iteration of the generator's loop never raises, stamps the record
    with the current time and takes the cycle state from the resolver called
    with the constant epoch [market_birth]. *)
Lemma minute_prediction_ok (moon_ra_degrees : datetime -> Q) (t : datetime) :
  exists p, minute_prediction moon_ra_degrees t = Ok p /\
    timestamp p = t /\
    calculate_dasha_bhukti market_birth t
    = Ok (Dasha (mahadasha_lord p) (bhukti_lord p)
                (mahadasha_progress p) (bhukti_progress p)).
Proof.
  unfold minute_prediction, calculate_moon_position.
  rewrite py_mod_ok by discriminate. cbn [bind].
  set (moon_long := moon_ra_degrees t
                    - inject_Z (Qfloor (moon_ra_degrees t / 360)) * 360).
  destruct (get_current_nakshatra_ok (Fin moon_long)) as (n & Hn & Hget).
  rewrite Hget. cbn [bind].
  destruct (cycle_state market_birth t) as
    (pre & ml & y & post & start & bl & mp & bp & _ & _ & Hcall & _).
  rewrite Hcall. cbn [bind].
  pose proof (nakshatra_span_nonzero n Hn) as Hspan.
  destruct (range n) as [s e]. cbn [fst snd] in Hspan.
  rewrite (py_div_ok _ _ Hspan). cbn [bind].
  cbn [dasha_mahadasha_lord dasha_bhukti_lord].
  destruct (planet_influences_total ml) as [mi ->]. cbn [bind].
  destruct (planet_influences_total bl) as [bi ->]. cbn [bind].
  destruct (planet_influences_total (lord n)) as [ni ->]. cbn [bind].
  destruct (direction_vote_ok (direction mi) (direction bi) (direction ni))
    as (d & w & Ht & Hw).
  rewrite Ht. cbn [bind]. rewrite Hw.
  cbn [bind dasha_mahadasha_progress dasha_bhukti_progress].
  destruct (detect_key_events_ok n ml bl mp bp ((moon_long - s) / (e - s)))
    as [events ->]. cbn [bind].
  eexists. split; [reflexivity|]. split; reflexivity.
Qed.


(** ** Records of the generator, field by field *)

Lemma moon_position_bounds (moon_ra_degrees : datetime -> Q) (t : datetime) :
  exists L, calculate_moon_position moon_ra_degrees t = Ok L /\
            0 <= L /\ L < 360.
Proof.
  unfold calculate_moon_position. rewrite py_mod_ok by discriminate.
  eexists. split; [reflexivity|]. apply mod_bounds. reflexivity.
Qed.

Lemma resolve_in_circle (L : Q) :
  0 <= L -> L < 360 ->
  exists n, In n nakshatras /\ contains n L /\
            get_current_nakshatra (Fin L) = Ok n.
Proof.
  intros H0 H360.
  destruct (nakshatras_exact_cover L H0 H360) as (i & n & Hi & Hn & Huniq).
  exists n. split; [eapply nth_error_In; exact Hi|]. split; [exact Hn|].
  unfold get_current_nakshatra.
  rewrite (scan_nakshatras_first nakshatras (Fin L) i n Hi); [reflexivity | |].
  - now apply in_range_Fin.
  - intros j m Hj Hm. apply (Huniq j m Hj). now apply in_range_Fin.
Qed.

(** Everything one iteration of the generator's loop puts in its record. *)
Lemma minute_prediction_fields (moon_ra_degrees : datetime -> Q) (t : datetime) :
  exists p n mi bi ni d,
    minute_prediction moon_ra_degrees t = Ok p /\
    timestamp p = t /\ time_str p = strftime_HM t /\
    calculate_moon_position moon_ra_degrees t = Ok (moon_longitude p) /\
    (0 <= moon_longitude p /\ moon_longitude p < 360) /\
    (In n nakshatras /\ contains n (moon_longitude p) /\
     current_nakshatra p = name n /\ nakshatra_lord p = lord n /\
     nakshatra_progress p
     = (moon_longitude p - fst (range n)) / (snd (range n) - fst (range n))) /\
    calculate_dasha_bhukti market_birth t
    = Ok (Dasha (mahadasha_lord p) (bhukti_lord p)
                (mahadasha_progress p) (bhukti_progress p)) /\
    (dict_lookup Planet_eqb planet_influences (mahadasha_lord p) = Ok mi /\
     dict_lookup Planet_eqb planet_influences (bhukti_lord p) = Ok bi /\
     dict_lookup Planet_eqb planet_influences (nakshatra_lord p) = Ok ni) /\
    predicted_volatility p
    = volatility mi * 0.4 + volatility bi * 0.3 + volatility ni * 0.3 /\
    (tally Direction_eqb
       [(bullish, 0); (bearish, 0); (neutral, 0); (uncertain, 0)]%Z
       [direction mi; direction bi; direction ni] = Ok d /\
     py_max_key d = Ok (predicted_direction p)) /\
    combined_influence_score p = calculate_combined_score mi bi ni /\
    detect_key_events n
      (Dasha (mahadasha_lord p) (bhukti_lord p)
             (mahadasha_progress p) (bhukti_progress p))
      (nakshatra_progress p) = Ok (key_events p).
Proof.
  destruct (moon_position_bounds moon_ra_degrees t) as (L & HL & H0 & H360).
  destruct (resolve_in_circle L H0 H360) as (n & Hn & Hcont & Hget).
  destruct (cycle_state market_birth t) as
    (pre & ml & y & post & start & bl & mp & bp & _ & _ & Hcall & _).
  pose proof (nakshatra_span_nonzero n Hn) as Hspan.
  destruct (planet_influences_total ml) as [mi Hmi].
  destruct (planet_influences_total bl) as [bi Hbi].
  destruct (planet_influences_total (lord n)) as [ni Hni].
  destruct (direction_vote_ok (direction mi) (direction bi) (direction ni))
    as (d & w & Ht & Hw).
  destruct (detect_key_events_ok n ml bl mp bp
              ((L - fst (range n)) / (snd (range n) - fst (range n))))
    as [events Hev].
  unfold minute_prediction. rewrite HL. cbn [bind].
  rewrite Hget. cbn [bind]. rewrite Hcall. cbn [bind].
  destruct (range n) as [s e] eqn:Hr. cbn [fst snd] in *.
  rewrite (py_div_ok _ _ Hspan). cbn [bind].
  cbn [dasha_mahadasha_lord dasha_bhukti_lord].
  rewrite Hmi. cbn [bind]. rewrite Hbi. cbn [bind]. rewrite Hni. cbn [bind].
  rewrite Ht. cbn [bind]. rewrite Hw.
  cbn [bind dasha_mahadasha_progress dasha_bhukti_progress].
  rewrite Hev. cbn [bind].
  eexists. exists n, mi, bi, ni, d.
  split; [reflexivity|].
  cbn [timestamp time_str moon_longitude current_nakshatra nakshatra_lord
       nakshatra_progress mahadasha_lord bhukti_lord mahadasha_progress
       bhukti_progress predicted_volatility predicted_direction
       combined_influence_score key_events].
  rewrite Hr. cbn [fst snd].
  repeat split; solve [reflexivity | assumption | apply Hcont].
Qed.

(** The loop visits exactly the instants of [minute_stamps], in order, and
    appends the record of each. *)
Lemma generate_loop_stamps (moon_ra_degrees : datetime -> Q) (end_time : datetime) :
  forall n current_time,
  Z.to_nat ((end_time - current_time) / us_per_minute + 1) = n ->
  exists predictions,
    generate_loop moon_ra_degrees n current_time end_time
    = Some (Ok predictions) /\
    Forall2 (fun t p => minute_prediction moon_ra_degrees t = Ok p)
      (map (fun i => (current_time + minutes (Z.of_nat i))%Z) (seq 0 n))
      predictions.
Proof.
  assert (Hm : (0 < us_per_minute)%Z) by reflexivity.
  induction n as [|n IH]; intros cur Hn.
  - cbn [generate_loop]. destruct (cur <=? end_time)%Z eqn:E.
    + apply Z.leb_le in E.
      assert (0 <= (end_time - cur) / us_per_minute)%Z
        by (apply Z.div_pos; lia).
      lia.
    + exists []. split; [reflexivity | constructor].
  - cbn [generate_loop]. destruct (cur <=? end_time)%Z eqn:E.
    + apply Z.leb_le in E.
      destruct (minute_prediction_ok moon_ra_degrees cur) as (p & Hp & _).
      rewrite Hp.
      destruct (IH (cur + minutes 1)%Z) as (rest & Hrest & Hall).
      * assert (Hq : (0 <= (end_time - cur) / us_per_minute)%Z)
          by (apply Z.div_pos; lia).
        replace (end_time - (cur + minutes 1))%Z
          with ((end_time - cur) + (-1) * us_per_minute)%Z
          by (unfold minutes; lia).
        rewrite Z.div_add by discriminate. lia.
      * rewrite Hrest. exists (p :: rest). split; [reflexivity|].
        cbn [seq map]. constructor.
        -- replace (cur + minutes (Z.of_nat 0))%Z with cur
             by (unfold minutes; lia).
           exact Hp.
        -- rewrite <- seq_shift, map_map.
           erewrite map_ext; [exact Hall|].
           intros i. cbv beta. unfold minutes. lia.
    + apply Z.leb_gt in E.
      assert ((end_time - cur) / us_per_minute < 0)%Z
        by (apply Z.div_lt_upper_bound; lia).
      lia.
Qed.

Lemma generate_stamps (moon_ra_degrees : datetime -> Q)
    (start_time end_time : datetime) :
  exists predictions,
    generate_minute_level_predictions moon_ra_degrees start_time end_time
    = Some (Ok predictions) /\
    Forall2 (fun t p => minute_prediction moon_ra_degrees t = Ok p)
      (minute_stamps start_time end_time) predictions.
Proof.
  unfold generate_minute_level_predictions, minute_stamps.
  apply generate_loop_stamps. reflexivity.
Qed.

Lemma generated_record_origin (moon_ra_degrees : datetime -> Q)
    (stamps : list datetime) (predictions : list Prediction) :
  Forall2 (fun t p => minute_prediction moon_ra_degrees t = Ok p)
    stamps predictions ->
  forall p, In p predictions ->
  exists t, In t stamps /\ minute_prediction moon_ra_degrees t = Ok p.
Proof.
  induction 1 as [|t q stamps' preds' Hq _ IH]; intros p Hp.
  - contradiction.
  - destruct Hp as [<- | Hp].
    + exists t. split; [now left | exact Hq].
    + destruct (IH p Hp) as (t' & Ht' & Hp'). exists t'. split; [now right | exact Hp'].
Qed.

Lemma Forall2_timestamps (moon_ra_degrees : datetime -> Q)
    (stamps : list datetime) (predictions : list Prediction) :
  Forall2 (fun t p => minute_prediction moon_ra_degrees t = Ok p)
    stamps predictions ->
  map timestamp predictions = stamps.
Proof.
  induction 1 as [|t q stamps' preds' Hq _ IH]; [reflexivity|].
  simpl. f_equal; [|exact IH].
  destruct (minute_prediction_ok moon_ra_degrees t) as (p & Hp & Hts & _).
  rewrite Hp in Hq. injection Hq as <-. exact Hts.
Qed.


Lemma Forall2_length_eq {A B : Type} (R : A -> B -> Prop) l1 l2 :
  Forall2 R l1 l2 -> List.length l1 = List.length l2.
Proof. induction 1; simpl; congruence. Qed.

Lemma minute_prediction_ext (moon moon' : datetime -> Q) (t : datetime) :
  moon' t = moon t -> minute_prediction moon' t = minute_prediction moon t.
Proof.
  intros H. unfold minute_prediction, calculate_moon_position.
  rewrite H. reflexivity.
Qed.

Lemma Forall2_functional {A B : Type} (f : A -> result B) (l : list A) :
  forall l1 l2,
  Forall2 (fun a b => f a = Ok b) l l1 ->
  Forall2 (fun a b => f a = Ok b) l l2 -> l1 = l2.
Proof.
  induction l as [|a l IH]; intros l1 l2 H1 H2;
    inversion H1; inversion H2; subst; [reflexivity|].
  f_equal; [congruence|]. now apply IH.
Qed.

Lemma cycle_states_of_stamps (stamps : list datetime) (l : list Prediction) :
  Forall2 (fun t p =>
    timestamp p = t /\
    calculate_dasha_bhukti market_birth t = Ok (snd (cycle_state_of p)))
    stamps l ->
  map (fun p => Ok (cycle_state_of p)) l
  = map (fun t => d <- calculate_dasha_bhukti market_birth t ;; Ok (t, d)) stamps.
Proof.
  induction 1 as [|t p stamps' l' [Ht Hd] _ IH]; [reflexivity|].
  cbn [map]. rewrite IH, Hd. cbn [bind]. do 2 f_equal.
  unfold cycle_state_of. cbn [snd]. now rewrite Ht.
Qed.

Lemma map_Ok_injective {A B : Type} (f : A -> B) (l1 : list A) :
  forall l2,
  map (fun a => Ok (f a)) l1 = map (fun a => Ok (f a)) l2 ->
  map f l1 = map f l2.
Proof.
  induction l1 as [|a l1 IH]; intros [|b l2] H; try discriminate H;
    [reflexivity|].
  cbn [map] in *. injection H as Hab Hrest. f_equal; [exact Hab | now apply IH].
Qed.

Lemma generated_cycle_states (moon_ra_degrees : datetime -> Q)
    (stamps : list datetime) (predictions : list Prediction) :
  Forall2 (fun t p => minute_prediction moon_ra_degrees t = Ok p)
    stamps predictions ->
  Forall2 (fun t p =>
    timestamp p = t /\
    calculate_dasha_bhukti market_birth t = Ok (snd (cycle_state_of p)))
    stamps predictions.
Proof.
  induction 1 as [|t q stamps' preds' Hq _ IH]; constructor; [|exact IH].
  destruct (minute_prediction_ok moon_ra_degrees t) as (p & Hp & Hts & Hd).
  rewrite Hp in Hq. injection Hq as <-. split; [exact Hts | exact Hd].
Qed.

(** C10: the per-minute generator takes a start and an end and no epoch.
    For every window that lies in the range of [datetime] it returns one
    record for each minute from start to end, in order, and the cycle state
    of the record of minute [t] is the one the resolver gives for the
    constant epoch [datetime(1992, 7, 1, 9, 15)] and [t].  The timestamps
    and cycle states therefore depend on [(start, end)] only, whatever the
    ephemeris answers, and the whole sequence is the same for two calls
    with equal start and end that see the same sky at the visited
    minutes. *)
Theorem generator_fixed_epoch (moon_ra_degrees : datetime -> Q)
    (start_time end_time : datetime)
    (Hmin : (0 <= start_time)%Z)
    (Hmax : (end_time + minutes 1 <= datetime_max)%Z) :
  exists predictions,
    generate_minute_level_predictions moon_ra_degrees start_time end_time
    = Some (Ok predictions) /\
    Forall2 (fun t p =>
      timestamp p = t /\
      calculate_dasha_bhukti (mk_datetime 1992 7 1 9 15) t
      = Ok (Dasha (mahadasha_lord p) (bhukti_lord p)
                  (mahadasha_progress p) (bhukti_progress p)))
      (minute_stamps start_time end_time) predictions /\
    ((start_time <= end_time)%Z ->
     Z.of_nat (List.length predictions)
     = ((end_time - start_time) / us_per_minute + 1)%Z) /\
    (forall moon',
       exists predictions',
         generate_minute_level_predictions moon' start_time end_time
         = Some (Ok predictions') /\
         map cycle_state_of predictions' = map cycle_state_of predictions) /\
    (forall moon',
       (forall t, In t (minute_stamps start_time end_time) ->
                  moon' t = moon_ra_degrees t) ->
       generate_minute_level_predictions moon' start_time end_time
       = Some (Ok predictions)).
Proof.
  destruct (generate_stamps moon_ra_degrees start_time end_time)
    as (predictions & Hgen & Hall).
  pose proof (generated_cycle_states _ _ _ Hall) as Hcyc.
  exists predictions. split; [exact Hgen|]. split; [exact Hcyc|].
  split; [|split].
  - intros Hle.
    rewrite <- (Forall2_length_eq _ _ _ Hall). unfold minute_stamps.
    rewrite length_map, length_seq. unfold generate_fuel.
    assert (0 <= (end_time - start_time) / us_per_minute)%Z
      by (apply Z.div_pos; [lia | reflexivity]).
    lia.
  - intros moon'.
    destruct (generate_stamps moon' start_time end_time)
      as (predictions' & Hgen' & Hall').
    exists predictions'. split; [exact Hgen'|].
    apply map_Ok_injective.
    rewrite (cycle_states_of_stamps _ _ (generated_cycle_states _ _ _ Hall')).
    rewrite (cycle_states_of_stamps _ _ Hcyc). reflexivity.
  - intros moon' Hsky.
    destruct (generate_stamps moon' start_time end_time)
      as (predictions' & Hgen' & Hall').
    rewrite Hgen'. do 2 f_equal.
    apply (Forall2_functional (minute_prediction moon_ra_degrees)
             (minute_stamps start_time end_time)); [|exact Hall].
    clear -Hall' Hsky.
    induction Hall' as [|t q stamps' preds' Hq _ IH]; constructor.
    + rewrite <- (minute_prediction_ext moon_ra_degrees moon' t); [exact Hq|].
      apply Hsky. now left.
    + apply IH. intros t' Ht'. apply Hsky. now right.
Qed.

Lemma generator_fixed_epoch_witness :
  exists predictions,
    generate_minute_level_predictions (fun _ => 100)
      (mk_datetime 2025 11 4 9 15) (mk_datetime 2025 11 4 9 20)
    = Some (Ok predictions) /\
    Z.of_nat (List.length predictions) = 6%Z /\
    generate_minute_level_predictions (fun t => 100 + inject_Z (t - t))
      (mk_datetime 2025 11 4 9 15) (mk_datetime 2025 11 4 9 20)
    = Some (Ok predictions).
Proof.
  destruct (generator_fixed_epoch (fun _ => 100)
              (mk_datetime 2025 11 4 9 15) (mk_datetime 2025 11 4 9 20))
    as (predictions & Hgen & _ & Hlen & _ & Hsame).
  - vm_compute. discriminate.
  - vm_compute. discriminate.
  - exists predictions. split; [exact Hgen|]. split.
    + rewrite Hlen; [reflexivity|]. vm_compute. discriminate.
    + apply Hsame. intros t _. rewrite Z.sub_diag. reflexivity.
Defined.

(** X1: for a non-negative angle of the ephemeris (a right ascension is
    one), however large, [calculate_moon_position] returns a longitude [L]
    of [0, 360) that differs from it by a whole number of turns, and
    [get_current_nakshatra] then answers with the one table entry whose
    range contains [L]: the 360-degree fallback is not taken. *)
Theorem moon_position_resolves (moon_ra_degrees : datetime -> Q) (t : datetime)
    (Hra : 0 <= moon_ra_degrees t) :
  exists L n,
    calculate_moon_position moon_ra_degrees t = Ok L /\
    (0 <= L /\ L < 360) /\
    (exists k : Z, moon_ra_degrees t == L + inject_Z k * 360) /\
    get_current_nakshatra (Fin L) = Ok n /\
    In n nakshatras /\ contains n L.
Proof.
  destruct (moon_position_bounds moon_ra_degrees t) as (L & HL & H0 & H360).
  destruct (resolve_in_circle L H0 H360) as (n & Hn & Hcont & Hget).
  exists L, n. split; [exact HL|]. split; [split; assumption|].
  split; [|split; [exact Hget | split; assumption]].
  unfold calculate_moon_position in HL. rewrite py_mod_ok in HL by discriminate.
  assert (E : L = moon_ra_degrees t
                  - inject_Z (Qfloor (moon_ra_degrees t / 360)) * 360)
    by congruence.
  exists (Qfloor (moon_ra_degrees t / 360)). rewrite E.
  generalize (inject_Z (Qfloor (moon_ra_degrees t / 360))). intros k. ring.
Qed.

Lemma moon_position_resolves_witness :
  exists L n,
    calculate_moon_position (fun _ => 460) (mk_datetime 2025 11 4 9 15) = Ok L /\
    L == 100 /\ get_current_nakshatra (Fin L) = Ok n /\ contains n L.
Proof.
  destruct (moon_position_resolves (fun _ => 460) (mk_datetime 2025 11 4 9 15))
    as (L & n & HL & _ & _ & Hn & _ & Hc).
  - vm_compute. discriminate.
  - exists L, n. split; [exact HL|]. split; [|split; assumption].
    vm_compute in HL. injection HL as <-. reflexivity.
Defined.




Lemma py_min_cases (a b : Q) :
  (b < a /\ py_min a b = b) \/ (a <= b /\ py_min a b = a).
Proof.
  unfold py_min. destruct (Qltb b a) eqn:E.
  - left. split; [now apply Qltb_true | reflexivity].
  - right. split; [now apply Qltb_false | reflexivity].
Qed.

(** X4: whatever the three volatilities and directions, the combined score
    never exceeds 1.0: it is the blend, times 1.3 when the three directions
    agree, cut at 1.0 in both cases; it is not negative when the
    volatilities are not. *)
Theorem combined_score_capped (maha_inf bhukti_inf nakshatra_inf : Influence) :
  calculate_combined_score maha_inf bhukti_inf nakshatra_inf <= 1 /\
  (aligned maha_inf bhukti_inf nakshatra_inf ->
   calculate_combined_score maha_inf bhukti_inf nakshatra_inf
   == Qmin 1 (blend maha_inf bhukti_inf nakshatra_inf * 1.3)) /\
  (~ aligned maha_inf bhukti_inf nakshatra_inf ->
   calculate_combined_score maha_inf bhukti_inf nakshatra_inf
   == Qmin 1 (blend maha_inf bhukti_inf nakshatra_inf)) /\
  (0 <= volatility maha_inf -> 0 <= volatility bhukti_inf ->
   0 <= volatility nakshatra_inf ->
   0 <= calculate_combined_score maha_inf bhukti_inf nakshatra_inf).
Proof.
  assert (Hbase : volatility maha_inf * 0.4 + volatility bhukti_inf * 0.3
                  + volatility nakshatra_inf * 0.3
                  == blend maha_inf bhukti_inf nakshatra_inf)
    by (unfold blend; ring).
  assert (E1 : 1.0 == 1) by reflexivity.
  unfold calculate_combined_score.
  destruct (Direction_eqb (direction maha_inf) (direction bhukti_inf)
            && Direction_eqb (direction bhukti_inf) (direction nakshatra_inf))
    eqn:E.
  - apply aligned_eqb in E. split; [|split; [|split]].
    + destruct (py_min_cases 1.0 ((volatility maha_inf * 0.4
          + volatility bhukti_inf * 0.3 + volatility nakshatra_inf * 0.3) * 1.3))
        as [[Hlt ->] | [_ ->]]; lra.
    + intros _. rewrite py_min_Qmin, Hbase, E1. reflexivity.
    + intros Hn. contradiction.
    + intros Ha Hb Hc.
      destruct (py_min_cases 1.0 ((volatility maha_inf * 0.4
          + volatility bhukti_inf * 0.3 + volatility nakshatra_inf * 0.3) * 1.3))
        as [[_ ->] | [_ ->]]; lra.
  - split; [|split; [|split]].
    + destruct (py_min_cases 1.0 (volatility maha_inf * 0.4
          + volatility bhukti_inf * 0.3 + volatility nakshatra_inf * 0.3))
        as [[Hlt ->] | [_ ->]]; lra.
    + intros Ha. apply aligned_eqb in Ha. congruence.
    + intros _. rewrite py_min_Qmin, Hbase, E1. reflexivity.
    + intros Ha Hb Hc.
      destruct (py_min_cases 1.0 (volatility maha_inf * 0.4
          + volatility bhukti_inf * 0.3 + volatility nakshatra_inf * 0.3))
        as [[_ ->] | [_ ->]]; lra.
Qed.

Lemma combined_score_capped_witness :
  calculate_combined_score (mkInfluence 0.9 bearish "aggressive_moves")
    (mkInfluence 0.9 bearish "aggressive_moves")
    (mkInfluence 0.9 bearish "aggressive_moves") == 1.
Proof.
  destruct (combined_score_capped (mkInfluence 0.9 bearish "aggressive_moves")
              (mkInfluence 0.9 bearish "aggressive_moves")
              (mkInfluence 0.9 bearish "aggressive_moves"))
    as (_ & Ha & _).
  rewrite Ha; [reflexivity|]. split; reflexivity.
Defined.





(** ** The event detector *)

Lemma Planet_eqb_eq (a b : Planet) : Planet_eqb a b = true <-> a = b.
Proof. destruct a, b; simpl; split; intros H; congruence. Qed.

Lemma Planet_pair_eqb (a b c d : Planet) :
  Planet_eqb a b && Planet_eqb c d = true <-> a = b /\ c = d.
Proof. now rewrite andb_true_iff, !Planet_eqb_eq. Qed.

Ltac event_cases :=
  simpl;
  repeat match goal with
         | H : Qltb _ _ = true |- _ => apply Qltb_true in H
         | H : Qltb _ _ = false |- _ => apply Qltb_false in H
         | H : _ && _ = true |- _ => apply Planet_pair_eqb in H
         | H : _ && _ = false |- _ =>
             apply not_true_iff_false in H; rewrite Planet_pair_eqb in H
         end;
  repeat split; intros;
  repeat match goal with
         | H : _ \/ _ |- _ => destruct H
         | H : False |- _ => destruct H
         end;
  first [ discriminate | assumption | contradiction | lia
        | exfalso; lra | tauto | auto 6 ].

Lemma detect_key_events_spec (n : Nakshatra) (ml bl : Planet)
    (mp bp progress : Q) :
  exists events,
     detect_key_events n (Dasha ml bl mp bp) progress = Ok events /\
     (In ("Approaching " ++ name n ++ " end")%string events
      <-> 0.95 < progress) /\
     (In "Mahadasha change imminent"%string events <-> 0.98 < mp) /\
     (In "Bhukti change imminent"%string events <-> 0.98 < bp) /\
     (In "Rahu-Mars combination - High volatility expected"%string events
      <-> ml = Rahu /\ bl = Mars) /\
     (In "Double Jupiter influence - Bullish bias"%string events
      <-> lord n = Jupiter /\ ml = Jupiter) /\
     (List.length events <= 5)%nat /\
     (events = [] <->
      progress <= 0.95 /\ mp <= 0.98 /\ bp <= 0.98 /\
      ~ (ml = Rahu /\ bl = Mars) /\ ~ (lord n = Jupiter /\ ml = Jupiter)).
Proof.
  unfold detect_key_events.
  cbn [dasha_mahadasha_progress dasha_bhukti_progress dasha_mahadasha_lord
       dasha_bhukti_lord bind].
  destruct (Qltb 0.95 progress) eqn:E1;
  destruct (Qltb 0.98 mp) eqn:E2;
  destruct (Qltb 0.98 bp) eqn:E3;
  destruct (Planet_eqb ml Rahu && Planet_eqb bl Mars) eqn:E4;
  destruct (Planet_eqb (lord n) Jupiter && Planet_eqb ml Jupiter) eqn:E5;
  (eexists; split; [reflexivity|]); event_cases.
Qed.

(** X7: on a cycle state with progress fields [detect_key_events] never
    raises and returns at most five labels, each present exactly when its
    own condition holds: segment progress above 0.95, major progress above
    0.98, sub progress above 0.98, major Rahu with sub Mars, segment lord
    Jupiter with major Jupiter; nothing is reported when none holds.  On
    the fallback dictionary, which has no progress fields, it raises
    [KeyError]. *)
Theorem key_events_conditions (n : Nakshatra) (ml bl : Planet)
    (mp bp progress : Q) :
  (exists events,
     detect_key_events n (Dasha ml bl mp bp) progress = Ok events /\
     (In ("Approaching " ++ name n ++ " end")%string events
      <-> 0.95 < progress) /\
     (In "Mahadasha change imminent"%string events <-> 0.98 < mp) /\
     (In "Bhukti change imminent"%string events <-> 0.98 < bp) /\
     (In "Rahu-Mars combination - High volatility expected"%string events
      <-> ml = Rahu /\ bl = Mars) /\
     (In "Double Jupiter influence - Bullish bias"%string events
      <-> lord n = Jupiter /\ ml = Jupiter) /\
     (List.length events <= 5)%nat /\
     (events = [] <->
      progress <= 0.95 /\ mp <= 0.98 /\ bp <= 0.98 /\
      ~ (ml = Rahu /\ bl = Mars) /\ ~ (lord n = Jupiter /\ ml = Jupiter))) /\
  (forall p, detect_key_events n (DashaFallback ml bl p) progress
             = Raise KeyError).
Proof.
  split; [apply detect_key_events_spec | reflexivity].
Qed.

(** ** More on the cycle resolver *)

Lemma floor_cycle_days (n : Z) :
  Qfloor (inject_Z n / total_mahadasha_days) = (n / 43830)%Z.
Proof.
  rewrite Zdiv_Qdiv. apply Qfloor_comp.
  rewrite total_mahadasha_days_value. reflexivity.
Qed.

Lemma calculate_dasha_bhukti_phase (epoch instant : datetime) :
  calculate_dasha_bhukti epoch instant
  = dasha_loop mahadasha_periods (phase epoch instant) 0.
Proof.
  unfold calculate_dasha_bhukti.
  rewrite py_mod_ok by (rewrite total_mahadasha_days_value; discriminate).
  reflexivity.
Qed.

Lemma phase_periodic (epoch i i' : datetime) (k : Z) :
  elapsed_whole_days epoch i' = (elapsed_whole_days epoch i + k * 43830)%Z ->
  phase epoch i' = phase epoch i.
Proof.
  intros H. unfold phase. rewrite H.
  generalize (elapsed_whole_days epoch i). intros n. cbv zeta.
  rewrite !floor_cycle_days, Z.div_add by discriminate.
  generalize (n / 43830)%Z. intros q.
  change total_mahadasha_days with (4383000 # 100).
  unfold Qminus, Qplus, Qopp, Qmult, inject_Z. cbn [Qnum Qden].
  f_equal. lia.
Qed.

(** X8: the cycle state repeats with the macro-cycle: moving the instant by
    any whole number [k] of 43830-day cycles, forwards or backwards, gives
    the same major ruler, sub ruler and progress values. *)
Theorem macro_cycle_periodic (epoch instant : datetime) (k : Z) :
  calculate_dasha_bhukti epoch (instant + k * (43830 * us_per_day))%Z
  = calculate_dasha_bhukti epoch instant.
Proof.
  rewrite !calculate_dasha_bhukti_phase. f_equal.
  apply (phase_periodic _ _ _ k).
  unfold elapsed_whole_days, timedelta_days.
  replace (instant + k * (43830 * us_per_day) - epoch)%Z
    with ((instant - epoch) + (k * 43830) * us_per_day)%Z by lia.
  apply Z.div_add. discriminate.
Qed.

Lemma session_elapsed_days (analysis_date t : datetime) :
  (replace_time analysis_date 9 15 <= t <= replace_time analysis_date 15 30)%Z ->
  elapsed_whole_days market_birth t = (analysis_date / us_per_day - 727379)%Z.
Proof.
  intros [Hlo Hhi].
  unfold elapsed_whole_days, timedelta_days.
  unfold replace_time in Hlo, Hhi.
  change market_birth
    with (727379 * us_per_day + 9 * us_per_hour + 15 * us_per_minute)%Z.
  set (D := (analysis_date / us_per_day)%Z) in *.
  symmetry.
  apply (Z.div_unique _ _ _
           (t - (D * us_per_day + 9 * us_per_hour + 15 * us_per_minute))).
  - left. unfold us_per_day, us_per_hour, us_per_minute, us_per_second in *. lia.
  - unfold us_per_day, us_per_hour, us_per_minute, us_per_second in *. lia.
Qed.

(** ** More on the session aggregator *)

Lemma direction_counts_total (records : list Prediction) :
  (direction_count bullish records + direction_count bearish records
   + direction_count neutral records + direction_count uncertain records
   = py_len records)%Z.
Proof.
  unfold direction_count, directions, py_len.
  induction records as [|p rest IH]; [reflexivity|].
  cbn [map occurrences List.length]. rewrite Nat2Z.inj_succ.
  destruct (predicted_direction p); cbn [Direction_eqb]; lia.
Qed.

Lemma py_len_cons {A : Type} (a : A) (l : list A) :
  inject_Z (py_len (a :: l)) == inject_Z (py_len l) + 1.
Proof.
  unfold py_len. cbn [List.length]. rewrite Nat2Z.inj_succ.
  unfold Z.succ. rewrite inject_Z_plus. reflexivity.
Qed.

Lemma py_len_pos {A : Type} (l : list A) : l <> [] -> 0 < inject_Z (py_len l).
Proof.
  intros Hne. destruct l as [|a l]; [contradiction|].
  rewrite py_len_cons.
  assert (0 <= inject_Z (py_len l)).
  { change 0 with (inject_Z 0). rewrite <- Zle_Qle. unfold py_len. lia. }
  lra.
Qed.

(** What [predict_session_outcome] returns on a non-empty sequence. *)
Lemma predict_session_outcome_fields (records : list Prediction) :
  records <> [] ->
  exists r,
    predict_session_outcome records = Ok r /\
    (forall d, (direction_count d records
                <= direction_count (overall_direction r) records)%Z) /\
    confidence r
    == inject_Z (direction_count (overall_direction r) records)
       / inject_Z (py_len records) /\
    session_character r
    = get_session_character (overall_direction r) (average_volatility r).
Proof.
  intros Hne.
  assert (Hdirs : directions records <> []).
  { destruct records; [contradiction | discriminate]. }
  destruct (first_seen_winner Direction_eqb Direction_eqb_eq _ Hdirs)
    as (w & Hmax & Hlook & Hbig & _).
  unfold predict_session_outcome.
  pose proof (outcome_loop_counts records [] 0) as Hloop.
  destruct (outcome_loop records [] 0) as [D tv].
  cbn [fst snd] in Hloop. subst D.
  rewrite (py_div_ok _ _ (py_len_nonzero records Hne)). cbn [bind].
  rewrite Hmax. cbn [bind]. rewrite Hlook. cbn [bind].
  rewrite (py_div_ok _ _ (py_len_nonzero records Hne)). cbn [bind].
  eexists. split; [reflexivity|].
  cbn [overall_direction confidence average_volatility session_character].
  split; [exact Hbig|]. split; reflexivity.
Qed.

Lemma occurrences_le_length {K : Type} (eqb : K -> K -> bool) k (l : list K) :
  (occurrences eqb k l <= Z.of_nat (List.length l))%Z.
Proof.
  induction l as [|h t IH]; [simpl; lia|].
  cbn [occurrences List.length]. rewrite Nat2Z.inj_succ.
  destruct (eqb k h); lia.
Qed.

Lemma occurrences_all {K : Type} (eqb : K -> K -> bool)
    (eqb_eq : forall a b, eqb a b = true <-> a = b) k (l : list K) :
  occurrences eqb k l = Z.of_nat (List.length l) <-> forall x, In x l -> x = k.
Proof.
  induction l as [|h t IH].
  - simpl. split; [intros _ x [] | reflexivity].
  - cbn [occurrences List.length]. rewrite Nat2Z.inj_succ.
    pose proof (occurrences_le_length eqb k t) as Hle.
    destruct (eqb k h) eqn:E.
    + apply eqb_eq in E. subst h. split.
      * intros H x [<- | Hx]; [reflexivity|]. apply IH; [lia | exact Hx].
      * intros H. assert (Ht : occurrences eqb k t = Z.of_nat (List.length t)).
        { apply IH. intros x Hx. apply H. now right. }
        lia.
    + split; [lia|]. intros H. exfalso.
      assert (Hk : h = k) by (apply H; now left).
      subst h. rewrite (proj2 (eqb_eq k k) eq_refl) in E. discriminate.
Qed.

Lemma capitalize_direction (d : Direction) :
  capitalize (Direction_name d) = Direction_title d.
Proof. destruct d; reflexivity. Qed.

(** X10: on a non-empty sequence [predict_session_outcome] returns a
    confidence between 1/4 and 1 (the winner of four buckets holds at least
    a quarter of the records), equal to 1 exactly when all records share one
    direction; the session character follows the average volatility it
    returns: Highly Volatile exactly when that average exceeds 0.7,
    otherwise Moderately Volatile above 0.5 and Stable up to 0.5, followed
    by the capitalised overall direction. *)
Theorem session_outcome_bounds (records : list Prediction)
    (Hne : records <> []) :
  exists r,
    predict_session_outcome records = Ok r /\
    (1 / 4 <= confidence r /\ confidence r <= 1) /\
    (confidence r == 1 <->
     forall p, In p records -> predicted_direction p = overall_direction r) /\
    (session_character r = "Highly Volatile"%string
     <-> 0.7 < average_volatility r) /\
    (0.5 < average_volatility r -> average_volatility r <= 0.7 ->
     session_character r
     = ("Moderately Volatile " ++ Direction_title (overall_direction r))%string) /\
    (average_volatility r <= 0.5 ->
     session_character r
     = ("Stable " ++ Direction_title (overall_direction r))%string).
Proof.
  destruct (predict_session_outcome_fields records Hne)
    as (r & Hr & Hmax & Hconf & Hchar).
  exists r. split; [exact Hr|].
  pose proof (py_len_pos records Hne) as Hlen.
  pose proof (py_len_nonzero records Hne) as Hlen0.
  set (w := overall_direction r) in *.
  assert (Hge : inject_Z (direction_count w records)
                <= inject_Z (py_len records)).
  { rewrite <- Zle_Qle. unfold direction_count, py_len, directions.
    rewrite <- (length_map predicted_direction records).
    apply occurrences_le_length. }
  split; [|split; [|split; [|split]]].
  - rewrite Hconf.
    pose proof (direction_counts_total records) as Htot.
    pose proof (Hmax bullish) as H1. pose proof (Hmax bearish) as H2.
    pose proof (Hmax neutral) as H3. pose proof (Hmax uncertain) as H4.
    assert (Hle : inject_Z (py_len records)
                  <= inject_Z (4 * direction_count w records))
      by (rewrite <- Zle_Qle; lia).
    rewrite inject_Z_mult in Hle. change (inject_Z 4) with 4 in Hle.
    split.
    + apply Qle_shift_div_l; [exact Hlen|].
      assert (E : 1 / 4 == 0.25) by reflexivity. rewrite E. lra.
    + apply Qle_shift_div_r; [exact Hlen | lra].
  - rewrite Hconf.
    assert (Hiff : direction_count w records = py_len records
                   <-> forall p, In p records -> predicted_direction p = w).
    { unfold direction_count, py_len, directions.
      rewrite <- (length_map predicted_direction records).
      rewrite (occurrences_all Direction_eqb Direction_eqb_eq). split.
      - intros H p Hp. apply H. now apply in_map.
      - intros H x Hx. apply in_map_iff in Hx.
        destruct Hx as (p & <- & Hp). now apply H. }
    rewrite <- Hiff. split.
    + intros E.
      assert (E' : inject_Z (direction_count w records)
                   == inject_Z (py_len records)).
      { rewrite <- (Qmult_1_l (inject_Z (py_len records))), <- E.
        field. exact Hlen0. }
      unfold Qeq in E'. cbn [inject_Z Qnum Qden] in E'. lia.
    + intros ->. field. exact Hlen0.
  - rewrite Hchar. unfold get_session_character.
    destruct (Qltb 0.7 (average_volatility r)) eqn:E.
    + apply Qltb_true in E. tauto.
    + apply Qltb_false in E.
      split; [|intros H; exfalso; lra].
      destruct (Qltb 0.5 (average_volatility r)); simpl; discriminate.
  - intros H5 H7. rewrite Hchar. unfold get_session_character.
    apply Qltb_false in H7. apply Qltb_true in H5.
    rewrite H7, H5, capitalize_direction. reflexivity.
  - intros H5. rewrite Hchar. unfold get_session_character.
    assert (H7 : Qltb 0.7 (average_volatility r) = false)
      by (apply Qltb_false; lra).
    apply Qltb_false in H5.
    rewrite H7, H5, capitalize_direction. reflexivity.
Qed.

Lemma session_outcome_bounds_witness :
  exists r,
    predict_session_outcome
      [sample_record 0.6 bearish; sample_record 0.4 bearish] = Ok r /\
    confidence r == 1 /\
    session_character r = "Stable Bearish"%string.
Proof.
  destruct (session_outcome_bounds
              [sample_record 0.6 bearish; sample_record 0.4 bearish])
    as (r & Hr & _ & Hone & _ & _ & Hstable); [discriminate|].
  exists r. split; [exact Hr|].
  pose proof Hr as Hval. vm_compute in Hval. injection Hval as E.
  split.
  - apply Hone. rewrite <- E. intros p [<- | [<- | []]]; reflexivity.
  - rewrite Hstable; rewrite <- E; [reflexivity|].
    vm_compute. discriminate.
Defined.

(** ** Dominant influences *)

Lemma insert_desc_perm {K : Type} (x : K * Z) (l : list (K * Z)) :
  Permutation (insert_desc x l) (x :: l).
Proof.
  induction l as [|y t IH]; simpl; [reflexivity|].
  destruct (snd x <? snd y)%Z; [|reflexivity].
  rewrite IH. apply perm_swap.
Qed.

Lemma insert_desc_sorted {K : Type} (x : K * Z) (l : list (K * Z)) :
  StronglySorted count_ge l -> StronglySorted count_ge (insert_desc x l).
Proof.
  induction 1 as [|y t Hs IH Hall]; simpl.
  - constructor; constructor.
  - destruct (snd x <? snd y)%Z eqn:E.
    + apply Z.ltb_lt in E. constructor; [exact IH|].
      apply Forall_forall. intros z Hz.
      apply (Permutation_in _ (insert_desc_perm x t)) in Hz.
      destruct Hz as [<- | Hz].
      * unfold count_ge. lia.
      * exact (proj1 (Forall_forall _ _) Hall z Hz).
    + apply Z.ltb_ge in E. constructor; [constructor; assumption|].
      constructor; [exact E|].
      apply Forall_forall. intros z Hz.
      pose proof (proj1 (Forall_forall _ _) Hall z Hz) as Hyz.
      unfold count_ge in *. lia.
Qed.

Lemma sorted_desc_perm {K : Type} (l : list (K * Z)) :
  Permutation (sorted_desc l) l.
Proof.
  induction l as [|x t IH]; simpl; [reflexivity|].
  rewrite insert_desc_perm. now constructor.
Qed.

Lemma sorted_desc_sorted {K : Type} (l : list (K * Z)) :
  StronglySorted count_ge (sorted_desc l).
Proof.
  induction l as [|x t IH]; simpl; [constructor|].
  now apply insert_desc_sorted.
Qed.

Lemma sorted_app_inv {A : Type} (R : A -> A -> Prop) (l1 l2 : list A) :
  StronglySorted R (l1 ++ l2) ->
  StronglySorted R l1 /\
  forall a b, In a l1 -> In b l2 -> R a b.
Proof.
  induction l1 as [|x t IH]; simpl; intros Hs.
  - split; [constructor | intros a b []].
  - inversion Hs as [|? ? Hs' Hall]; subst.
    destruct (IH Hs') as [Ht Hcross]. split.
    + constructor; [exact Ht|].
      apply Forall_forall. intros z Hz.
      apply (proj1 (Forall_forall _ _) Hall). apply in_or_app. now left.
    + intros a b [<- | Ha] Hb.
      * apply (proj1 (Forall_forall _ _) Hall). apply in_or_app. now right.
      * now apply Hcross.
Qed.

Lemma lord_loop_tally (records : list Prediction) :
  forall d,
  lord_loop records d = fold_left (count_up Planet_eqb) (all_lords records) d.
Proof.
  induction records as [|p rest IH]; intros d; [reflexivity|].
  cbn [lord_loop all_lords flat_map]. rewrite fold_left_app. apply IH.
Qed.

Lemma share_list_ok (total : Z) (l : list (Planet * Z)) :
  ~ inject_Z total == 0 ->
  share_list total l
  = Ok (map (fun e => mkPlanetShare (fst e)
                        (inject_Z (snd e) / inject_Z total * 100)) l).
Proof.
  intros Ht. induction l as [|[q c] t IH]; [reflexivity|].
  cbn [share_list]. rewrite (py_div_ok _ _ Ht). cbn [bind].
  rewrite IH. reflexivity.
Qed.

Lemma occurrences_pos {K : Type} (eqb : K -> K -> bool)
    (eqb_eq : forall a b, eqb a b = true <-> a = b) (k : K) (l : list K) :
  In k l -> (0 < occurrences eqb k l)%Z.
Proof.
  induction l as [|h t IH]; intros Hin; [contradiction|]. simpl.
  pose proof (occurrences_nonneg eqb k t).
  destruct (eqb k h) eqn:E; [lia|].
  destruct Hin as [-> | Hin]; [|specialize (IH Hin); lia].
  rewrite (proj2 (eqb_eq k k) eq_refl) in E. discriminate.
Qed.

Lemma sorted_map_mono {A B : Type} (R : A -> A -> Prop) (R' : B -> B -> Prop)
    (f : A -> B) (l : list A) :
  (forall a b, R a b -> R' (f a) (f b)) ->
  StronglySorted R l -> StronglySorted R' (map f l).
Proof.
  intros Hmono. induction 1 as [|x t Hs IH Hall]; simpl; constructor.
  - exact IH.
  - apply Forall_forall. intros y Hy. apply in_map_iff in Hy.
    destruct Hy as (z & <- & Hz). apply Hmono.
    exact (proj1 (Forall_forall _ _) Hall z Hz).
Qed.

(** X11: on a non-empty sequence [get_dominant_influences] returns between
    one and three distinct planets, each with its share
    [count / (3 * len) * 100] of the lord slots, listed by decreasing share;
    no planet left out of the list occurs more often than a listed one. *)
Theorem dominant_influences_top (records : list Prediction)
    (Hne : records <> []) :
  exists shares,
    get_dominant_influences records = Ok shares /\
    (1 <= List.length shares <= 3)%nat /\
    NoDup (map planet shares) /\
    (forall s, In s shares ->
       (0 < lord_count (planet s) records)%Z /\
       influence_percentage s
       == inject_Z (lord_count (planet s) records)
          / inject_Z (py_len records * 3) * 100) /\
    StronglySorted
      (fun a b => influence_percentage b <= influence_percentage a) shares /\
    (forall q s, In s shares -> ~ In q (map planet shares) ->
       (lord_count q records <= lord_count (planet s) records)%Z).
Proof.
  unfold get_dominant_influences. rewrite lord_loop_tally.
  set (D := fold_left (count_up Planet_eqb) (all_lords records) []).
  destruct (tally_keys Planet_eqb Planet_eqb_eq (all_lords records) []
              (NoDup_nil _)) as (Hnd & _ & Hin).
  fold D in Hnd, Hin.
  assert (Hget : forall k, dict_get Planet_eqb D k 0%Z = lord_count k records).
  { intros k. unfold D. rewrite (tally_get Planet_eqb Planet_eqb_eq).
    reflexivity. }
  assert (Hentry : forall e, In e D -> snd e = lord_count (fst e) records).
  { intros [k c] He. rewrite <- Hget. symmetry.
    now apply (dict_get_in_nodup Planet_eqb Planet_eqb_eq). }
  assert (Htotal : ~ inject_Z (py_len records * 3) == 0).
  { intros E. unfold Qeq in E. cbn [inject_Z Qnum Qden] in E.
    destruct records; [contradiction|]. unfold py_len in E.
    cbn [List.length] in E. lia. }
  assert (Htpos : 0 < inject_Z (py_len records * 3)).
  { change 0 with (inject_Z 0). rewrite <- Zlt_Qlt.
    destruct records; [contradiction|]. unfold py_len.
    cbn [List.length]. lia. }
  rewrite (share_list_ok _ _ Htotal).
  set (S := sorted_desc D).
  pose proof (sorted_desc_perm D) as Hperm. fold S in Hperm.
  pose proof (sorted_desc_sorted D) as Hsorted. fold S in Hsorted.
  unfold py_take. rewrite <- (firstn_skipn 3 S) in Hsorted.
  destruct (sorted_app_inv _ _ _ Hsorted) as [HsT Hcross].
  assert (HTS : forall e, In e (firstn 3 S) -> In e D).
  { intros e He. apply (Permutation_in _ Hperm).
    rewrite <- (firstn_skipn 3 S). apply in_or_app. now left. }
  set (f := fun e : Planet * Z =>
              mkPlanetShare (fst e)
                (inject_Z (snd e) / inject_Z (py_len records * 3) * 100)).
  assert (Hplanets : map planet (map f (firstn 3 S)) = map fst (firstn 3 S)).
  { rewrite map_map. reflexivity. }
  eexists. split; [reflexivity|]. fold f.
  split; [|split; [|split; [|split]]].
  - rewrite length_map, length_firstn.
    assert (Hlen : (1 <= List.length S)%nat).
    { rewrite (Permutation_length Hperm).
      destruct records as [|p rest]; [contradiction|].
      assert (Hk : In (mahadasha_lord p) (dict_keys D)).
      { apply Hin. right. simpl. now left. }
      destruct D; [destruct Hk | simpl; lia]. }
    lia.
  - rewrite Hplanets.
    assert (HndS : NoDup (map fst S)).
    { apply (Permutation_NoDup (l := map fst D)); [|exact Hnd].
      apply Permutation_map. now symmetry. }
    rewrite <- (firstn_skipn 3 S), map_app in HndS.
    exact (NoDup_app_remove_r _ _ HndS).
  - intros s Hs. apply in_map_iff in Hs. destruct Hs as (e & <- & He).
    unfold f. cbn [planet influence_percentage].
    rewrite (Hentry e (HTS e He)). split; [|reflexivity].
    apply (occurrences_pos Planet_eqb Planet_eqb_eq).
    assert (Hk : In (fst e) (dict_keys D))
      by (apply in_map; exact (HTS e He)).
    apply Hin in Hk. destruct Hk as [[] | Hk]. exact Hk.
  - apply (sorted_map_mono count_ge); [|exact HsT].
    intros a b Hab. unfold f, count_ge in *. cbn [influence_percentage].
    assert (Hq : inject_Z (snd b) <= inject_Z (snd a))
      by (rewrite <- Zle_Qle; exact Hab).
    apply Qmult_le_compat_r; [|discriminate].
    apply Qmult_le_compat_r; [exact Hq|].
    apply Qlt_le_weak. now apply Qinv_lt_0_compat.
  - intros q s Hs Hq. apply in_map_iff in Hs. destruct Hs as (e & <- & He).
    unfold f at 1. cbn [planet]. rewrite Hplanets in Hq.
    rewrite <- (Hentry e (HTS e He)).
    destruct (in_dec (key_dec Planet_eqb Planet_eqb_eq) q (dict_keys D))
      as [Hk | Hk].
    + destruct (key_entry D q Hk) as [c Hc].
      pose proof (Hentry _ Hc) as Hqc. cbn [fst snd] in Hqc. rewrite <- Hqc.
      apply (Permutation_in _ (Permutation_sym Hperm)) in Hc.
      rewrite <- (firstn_skipn 3 S) in Hc. apply in_app_or in Hc.
      destruct Hc as [Hc | Hc].
      * exfalso. apply Hq. apply (in_map fst) in Hc. exact Hc.
      * exact (Hcross e (q, c) He Hc).
    + rewrite <- (Hget q), (dict_get_notin Planet_eqb Planet_eqb_eq D q 0%Z Hk).
      rewrite (Hentry e (HTS e He)). apply occurrences_nonneg.
Qed.

Lemma dominant_influences_top_witness :
  exists shares,
    get_dominant_influences
      [sample_record 0.6 bearish; sample_record 0.4 bullish] = Ok shares /\
    (1 <= List.length shares <= 3)%nat.
Proof.
  destruct (dominant_influences_top
              [sample_record 0.6 bearish; sample_record 0.4 bullish])
    as (shares & Hs & Hlen & _).
  - discriminate.
  - exists shares. split; assumption.
Defined.

(** ** Key periods *)

Lemma filter_cases {A : Type} (f : A -> bool) (l : list A) :
  (filter f l = [] /\ forall x, In x l -> f x = false) \/
  (exists x r, filter f l = x :: r /\ In x l /\ f x = true).
Proof.
  induction l as [|h t IH]; simpl.
  - left. split; [reflexivity | intros x []].
  - destruct (f h) eqn:E.
    + right. exists h, (filter f t). auto.
    + destruct IH as [[Hnil Hall] | (x & r & Hx & Hin & Hfx)].
      * left. split; [exact Hnil|]. intros x [<- | Hx]; auto.
      * right. exists x, r. auto.
Qed.

Lemma take_length_bounds {A B : Type} (g : A -> B) (n : nat) (x : A) (r : list A) :
  (1 <= n)%nat ->
  (1 <= List.length (map g (py_take n (x :: r))) <= n)%nat.
Proof.
  intros Hn. unfold py_take. rewrite length_map, length_firstn.
  cbn [List.length]. lia.
Qed.

Ltac key_period_cases :=
  cbn [app In kp_type kp_periods List.length]; intros;
  repeat match goal with
         | H : _ \/ _ |- _ => destruct H
         | H : False |- _ => destruct H
         | H : exists _, _ |- _ => destruct H
         | H : _ /\ _ |- _ => destruct H
         | H : mkKeyPeriod _ _ _ _ = _ |- _ => subst
         end;
  cbn [kp_type kp_periods] in *;
  first [ discriminate | lia | congruence
        | match goal with
          | |- context [py_take ?n (?x :: ?r)] =>
              pose proof (take_length_bounds time_str n x r); lia
          end
        | eauto 8 ].

(** X12: [identify_key_periods] reports at most three windows, in the order
    High Volatility, Strong Bullish Bias, Strong Bearish Bias; a window is
    present exactly when some record meets its threshold (volatility above
    0.7; bullish, respectively bearish, with score above 0.7), so the result
    is empty when no record qualifies; every window lists between one and
    three time labels, and the High Volatility window lists those of the
    first three qualifying records in sequence order. *)
Theorem key_periods_windows (records : list Prediction) :
  (List.length (identify_key_periods records) <= 3)%nat /\
  (forall k, In k (identify_key_periods records) ->
     (1 <= List.length (kp_periods k) <= 3)%nat) /\
  (forall k, In k (identify_key_periods records) ->
     kp_type k = "High Volatility"%string ->
     kp_periods k
     = map time_str
         (firstn 3 (filter (fun p => Qltb 0.7 (predicted_volatility p))
                      records))) /\
  ((exists k, In k (identify_key_periods records) /\
              kp_type k = "High Volatility"%string)
   <-> exists p, In p records /\ 0.7 < predicted_volatility p) /\
  ((exists k, In k (identify_key_periods records) /\
              kp_type k = "Strong Bullish Bias"%string)
   <-> exists p, In p records /\ predicted_direction p = bullish /\
                 0.7 < combined_influence_score p) /\
  ((exists k, In k (identify_key_periods records) /\
              kp_type k = "Strong Bearish Bias"%string)
   <-> exists p, In p records /\ predicted_direction p = bearish /\
                 0.7 < combined_influence_score p).
Proof.
  assert (Hdir : forall p d,
            Direction_eqb (predicted_direction p) d
            && Qltb 0.7 (combined_influence_score p) = true
            <-> predicted_direction p = d /\ 0.7 < combined_influence_score p).
  { intros p d. now rewrite andb_true_iff, Direction_eqb_eq, Qltb_true. }
  unfold identify_key_periods.
  destruct (filter_cases (fun p => Qltb 0.7 (predicted_volatility p)) records)
    as [[-> Hv] | (xv & rv & -> & Hxv & Hfv)];
  destruct (filter_cases
              (fun p => Direction_eqb (predicted_direction p) bullish
                        && Qltb 0.7 (combined_influence_score p)) records)
    as [[-> Hb] | (xb & rb & -> & Hxb & Hfb)];
  destruct (filter_cases
              (fun p => Direction_eqb (predicted_direction p) bearish
                        && Qltb 0.7 (combined_influence_score p)) records)
    as [[-> Hs] | (xs & rs & -> & Hxs & Hfs)];
  try (apply Qltb_true in Hfv); try (apply Hdir in Hfb);
  try (apply Hdir in Hfs);
  repeat match goal with
         | |- _ /\ _ => split
         | |- _ <-> _ => split
         end;
  try solve [key_period_cases];
  intros (p & Hp & Hq);
  try (apply Qltb_true in Hq); try (apply Hdir in Hq);
  first [ rewrite (Hv p Hp) in Hq | rewrite (Hb p Hp) in Hq
        | rewrite (Hs p Hp) in Hq ];
  discriminate Hq.
Qed.

(** ** The trading session *)

Lemma clock_fields (D hh mm : Z) :
  (0 <= hh < 24)%Z -> (0 <= mm < 60)%Z ->
  (((D * us_per_day + hh * us_per_hour + mm * us_per_minute) / us_per_hour)
     mod 24 = hh)%Z /\
  (((D * us_per_day + hh * us_per_hour + mm * us_per_minute) / us_per_minute)
     mod 60 = mm)%Z.
Proof.
  intros Hh Hm.
  assert (E1 : ((D * us_per_day + hh * us_per_hour + mm * us_per_minute)
                / us_per_hour = D * 24 + hh)%Z).
  { symmetry. apply (Z.div_unique _ _ _ (mm * us_per_minute)).
    - left. unfold us_per_hour, us_per_minute, us_per_second. lia.
    - unfold us_per_day, us_per_hour, us_per_minute, us_per_second. lia. }
  assert (E2 : ((D * us_per_day + hh * us_per_hour + mm * us_per_minute)
                / us_per_minute = (D * 24 + hh) * 60 + mm)%Z).
  { symmetry. apply (Z.div_unique _ _ _ 0).
    - left. unfold us_per_minute, us_per_second. lia.
    - unfold us_per_day, us_per_hour, us_per_minute, us_per_second. lia. }
  rewrite E1, E2. split.
  - symmetry. apply (Z.mod_unique _ _ D); [left; lia | lia].
  - symmetry. apply (Z.mod_unique _ _ (D * 24 + hh)); [left; lia | lia].
Qed.

Lemma strftime_replace_time (t : datetime) (hh mm : Z) :
  (0 <= hh < 24)%Z -> (0 <= mm < 60)%Z ->
  strftime_HM (replace_time t hh mm)
  = (two_digits hh ++ ":" ++ two_digits mm)%string.
Proof.
  intros H1 H2. unfold strftime_HM, replace_time.
  destruct (clock_fields (t / us_per_day) hh mm H1 H2) as [-> ->].
  reflexivity.
Qed.

(** X13: formatting a time that was set with [replace(hour, minute,
    second=0, microsecond=0)] gives back that hour and minute, two digits
    each, whatever the date: the session opens at the label 09:15 and
    closes at 15:30. *)
Theorem strftime_of_replace (t : datetime) (hh mm : Z)
    (Hh : (0 <= hh < 24)%Z) (Hm : (0 <= mm < 60)%Z) :
  strftime_HM (replace_time t hh mm)
  = (two_digits hh ++ ":" ++ two_digits mm)%string /\
  strftime_HM (replace_time t 9 15) = "09:15"%string /\
  strftime_HM (replace_time t 15 30) = "15:30"%string.
Proof.
  split; [now apply strftime_replace_time|]. split.
  - rewrite strftime_replace_time by lia. reflexivity.
  - rewrite strftime_replace_time by lia. reflexivity.
Qed.

Lemma strftime_of_replace_witness :
  strftime_HM (replace_time (mk_datetime 2025 11 4 11 47) 9 5) = "09:05"%string.
Proof.
  destruct (strftime_of_replace (mk_datetime 2025 11 4 11 47) 9 5) as [H _];
    [lia | lia |].
  rewrite H. reflexivity.
Defined.

Lemma session_fuel (analysis_date : datetime) :
  generate_fuel (replace_time analysis_date 9 15)
                (replace_time analysis_date 15 30) = 376%nat.
Proof.
  unfold generate_fuel, replace_time.
  replace (analysis_date / us_per_day * us_per_day + 15 * us_per_hour
           + 30 * us_per_minute
           - (analysis_date / us_per_day * us_per_day + 9 * us_per_hour
              + 15 * us_per_minute))%Z
    with (375 * us_per_minute)%Z
    by (unfold us_per_hour; lia).
  rewrite Z.div_mul by discriminate. reflexivity.
Qed.

Lemma calculate_same_day (epoch t1 t2 : datetime) :
  elapsed_whole_days epoch t1 = elapsed_whole_days epoch t2 ->
  calculate_dasha_bhukti epoch t1 = calculate_dasha_bhukti epoch t2.
Proof.
  intros H. rewrite !calculate_dasha_bhukti_phase. unfold phase.
  now rewrite H.
Qed.

Lemma assess_session_risk_ok (records : list Prediction) :
  records <> [] -> exists r, assess_session_risk records = Ok r.
Proof.
  intros Hne. unfold assess_session_risk.
  rewrite (py_div_ok _ _ (py_len_nonzero records Hne)). cbn [bind].
  destruct (Qltb 0.3 _); [eexists; reflexivity|].
  destruct (Qltb 0.15 _); eexists; reflexivity.
Qed.

Lemma get_dominant_influences_ok (records : list Prediction) :
  records <> [] -> exists shares, get_dominant_influences records = Ok shares.
Proof.
  intros Hne. unfold get_dominant_influences.
  rewrite share_list_ok; [eexists; reflexivity|].
  intros E. unfold Qeq in E. cbn [inject_Z Qnum Qden] in E.
  destruct records; [contradiction|]. unfold py_len in E.
  cbn [List.length] in E. lia.
Qed.

(** The session entry point: what it generates and how the report is put
    together. *)
Lemma session_records (moon_ra_degrees : datetime -> Q) (analysis_date : datetime) :
  exists r,
    get_trading_session_predictions moon_ra_degrees analysis_date
    = Some (Ok r) /\
    generate_minute_level_predictions moon_ra_degrees
      (replace_time analysis_date 9 15) (replace_time analysis_date 15 30)
    = Some (Ok (minute_predictions r)) /\
    Forall2 (fun t p => minute_prediction moon_ra_degrees t = Ok p)
      (minute_stamps (replace_time analysis_date 9 15)
                     (replace_time analysis_date 15 30))
      (minute_predictions r) /\
    List.length (minute_predictions r) = 376%nat /\
    key_periods r = identify_key_periods (minute_predictions r) /\
    predict_session_outcome (minute_predictions r) = Ok (session_prediction r) /\
    get_dominant_influences (minute_predictions r) = Ok (dominant_influences r) /\
    assess_session_risk (minute_predictions r) = Ok (risk_assessment r).
Proof.
  destruct (generate_stamps moon_ra_degrees (replace_time analysis_date 9 15)
              (replace_time analysis_date 15 30)) as (preds & Hgen & Hall).
  assert (Hlen : List.length preds = 376%nat).
  { rewrite <- (Forall2_length_eq _ _ _ Hall). unfold minute_stamps.
    now rewrite length_map, length_seq, session_fuel. }
  assert (Hne : preds <> []) by (intros ->; discriminate Hlen).
  destruct (predict_session_outcome_fields preds Hne) as (o & Ho & _).
  destruct (get_dominant_influences_ok preds Hne) as (sh & Hsh).
  destruct (assess_session_risk_ok preds Hne) as (ra & Hra).
  unfold get_trading_session_predictions. rewrite Hgen, Ho. cbn [bind].
  rewrite Hsh. cbn [bind]. rewrite Hra. cbn [bind].
  eexists. split; [reflexivity|].
  cbn [minute_predictions key_periods session_prediction dominant_influences
       risk_assessment].
  repeat split; assumption.
Qed.

Lemma stamp_of_position (moon_ra_degrees : datetime -> Q)
    (start_time end_time : datetime) (predictions : list Prediction) :
  Forall2 (fun t p => minute_prediction moon_ra_degrees t = Ok p)
    (minute_stamps start_time end_time) predictions ->
  forall i p, nth_error predictions i = Some p ->
    timestamp p = (start_time + minutes (Z.of_nat i))%Z /\
    time_str p = strftime_HM (start_time + minutes (Z.of_nat i))%Z.
Proof.
  intros Hall i p Hi.
  pose proof (Forall2_timestamps _ _ _ Hall) as Hmap.
  assert (Hlt : (i < generate_fuel start_time end_time)%nat).
  { assert (Hl : List.length predictions = generate_fuel start_time end_time).
    { rewrite <- (Forall2_length_eq _ _ _ Hall). unfold minute_stamps.
      now rewrite length_map, length_seq. }
    rewrite <- Hl. apply nth_error_Some. congruence. }
  assert (Hi' : nth_error (map timestamp predictions) i = Some (timestamp p))
    by (rewrite nth_error_map, Hi; reflexivity).
  rewrite Hmap in Hi'. unfold minute_stamps in Hi'.
  rewrite nth_error_map, nth_error_seq in Hi'.
  apply Nat.ltb_lt in Hlt. rewrite Hlt in Hi'. simpl in Hi'.
  injection Hi' as Hts.
  assert (Hin : In p predictions) by (eapply nth_error_In; exact Hi).
  destruct (generated_record_origin _ _ _ Hall p Hin) as (t & _ & Ht).
  destruct (minute_prediction_fields moon_ra_degrees t)
    as (p' & n & mi & bi & ni & d & Hp' & Hstamp & Hstr & _).
  rewrite Ht in Hp'. injection Hp' as <-.
  split; [symmetry; exact Hts|]. rewrite Hstr, Hts, Hstamp. reflexivity.
Qed.

(** X14: for every analysis date and ephemeris
    [get_trading_session_predictions] returns a report (the generator's loop
    ends, nothing raises, and no aggregator meets an empty list): it holds
    exactly 376 minute records, the one at position [i] stamped [i] minutes
    after 09:15 of the analysis date, labelled 09:15 for the first and 15:30
    for the last, together with the four aggregations of those records. *)
Theorem trading_session_report (moon_ra_degrees : datetime -> Q)
    (analysis_date : datetime) :
  exists r,
    get_trading_session_predictions moon_ra_degrees analysis_date
    = Some (Ok r) /\
    List.length (minute_predictions r) = 376%nat /\
    (forall i p, nth_error (minute_predictions r) i = Some p ->
       timestamp p
       = (replace_time analysis_date 9 15 + minutes (Z.of_nat i))%Z) /\
    (forall p, nth_error (minute_predictions r) 0 = Some p ->
       time_str p = "09:15"%string) /\
    (forall p, nth_error (minute_predictions r) 375 = Some p ->
       timestamp p = replace_time analysis_date 15 30 /\
       time_str p = "15:30"%string) /\
    key_periods r = identify_key_periods (minute_predictions r) /\
    predict_session_outcome (minute_predictions r) = Ok (session_prediction r) /\
    get_dominant_influences (minute_predictions r) = Ok (dominant_influences r) /\
    assess_session_risk (minute_predictions r) = Ok (risk_assessment r).
Proof.
  destruct (session_records moon_ra_degrees analysis_date)
    as (r & Hr & _ & Hall & Hlen & Hk & Ho & Hd & Ha).
  exists r. split; [exact Hr|]. split; [exact Hlen|].
  pose proof (stamp_of_position _ _ _ _ Hall) as Hpos.
  split; [intros i p Hi; apply (Hpos i p Hi)|].
  assert (Hclose : (replace_time analysis_date 9 15 + minutes (Z.of_nat 375)
                    = replace_time analysis_date 15 30)%Z).
  { unfold replace_time, minutes, us_per_hour. lia. }
  split; [|split].
  - intros p Hp. destruct (Hpos 0%nat p Hp) as [_ ->].
    replace (replace_time analysis_date 9 15 + minutes (Z.of_nat 0))%Z
      with (replace_time analysis_date 9 15) by (unfold minutes; lia).
    rewrite strftime_replace_time by lia. reflexivity.
  - intros p Hp. destruct (Hpos 375%nat p Hp) as [-> ->].
    rewrite Hclose. split; [reflexivity|].
    rewrite strftime_replace_time by lia. reflexivity.
  - repeat split; assumption.
Qed.

(** X15: within one trading session the cycle state does not move: every
    one of the 376 minute records carries the major ruler, sub ruler and
    both progress values that the resolver gives for the session's opening
    instant (09:15, the epoch's own time of day, so the whole-day count is
    the same from open to close). *)
Theorem session_cycle_state_constant (moon_ra_degrees : datetime -> Q)
    (analysis_date : datetime) :
  exists r ml bl mp bp,
    get_trading_session_predictions moon_ra_degrees analysis_date
    = Some (Ok r) /\
    calculate_dasha_bhukti market_birth (replace_time analysis_date 9 15)
    = Ok (Dasha ml bl mp bp) /\
    forall p, In p (minute_predictions r) ->
      mahadasha_lord p = ml /\ bhukti_lord p = bl /\
      mahadasha_progress p = mp /\ bhukti_progress p = bp.
Proof.
  destruct (session_records moon_ra_degrees analysis_date)
    as (r & Hr & _ & Hall & Hlen & _).
  destruct (cycle_state market_birth (replace_time analysis_date 9 15)) as
    (pre & ml & y & post & start & bl & mp & bp & _ & _ & Hcall & _).
  exists r, ml, bl, mp, bp. split; [exact Hr|]. split; [exact Hcall|].
  intros p Hp.
  destruct (In_nth_error _ _ Hp) as [i Hi].
  destruct (stamp_of_position _ _ _ _ Hall i p Hi) as [Hts _].
  assert (Hlt : (i < 376)%nat).
  { rewrite <- Hlen. apply nth_error_Some. congruence. }
  destruct (generated_record_origin _ _ _ Hall p Hp) as (t & _ & Ht).
  destruct (minute_prediction_fields moon_ra_degrees t)
    as (p' & n & mi & bi & ni & d & Hp' & Hstamp & _ & _ & _ & _ & Hd & _).
  rewrite Ht in Hp'. injection Hp' as <-.
  assert (Hsame : calculate_dasha_bhukti market_birth t
                  = calculate_dasha_bhukti market_birth
                      (replace_time analysis_date 9 15)).
  { apply calculate_same_day.
    rewrite (session_elapsed_days analysis_date t),
            (session_elapsed_days analysis_date (replace_time analysis_date 9 15)).
    - reflexivity.
    - unfold replace_time, us_per_hour, us_per_minute, us_per_second. lia.
    - rewrite <- Hstamp, Hts.
      unfold replace_time, minutes, us_per_hour, us_per_minute, us_per_second.
      lia. }
  rewrite Hsame, Hcall in Hd. injection Hd as <- <- <- <-.
  repeat split; reflexivity.
Qed.

(** ** Nakshatra transitions of the chart layer *)

Lemma changes_loop_spec (rows : list Prediction) :
  forall (prev : Prediction) (i : Z) (ch : NakshatraChange),
  In ch (changes_loop rows i (Some (current_nakshatra prev))) <->
  exists k a b,
    nth_error (prev :: rows) k = Some a /\
    nth_error (prev :: rows) (S k) = Some b /\
    current_nakshatra b <> current_nakshatra a /\
    ch = mkChange (i + Z.of_nat k) (time_str b)
                  (current_nakshatra b) (current_nakshatra a).
Proof.
  induction rows as [|row rest IH]; intros prev i ch.
  - simpl. split; [intros []|].
    intros (k & a & b & _ & Hb & _). destruct k; discriminate Hb.
  - cbn [changes_loop].
    destruct (String.eqb (current_nakshatra row) (current_nakshatra prev)) eqn:E;
      cbn [negb].
    + apply String.eqb_eq in E. rewrite <- E. rewrite IH. split.
      * intros (k & a & b & Ha & Hb & Hne & ->).
        exists (S k), a, b. repeat split; try assumption.
        f_equal. lia.
      * intros (k & a & b & Ha & Hb & Hne & ->).
        destruct k as [|k].
        -- simpl in Ha, Hb. injection Ha as <-. injection Hb as <-.
           congruence.
        -- exists k, a, b. repeat split; try assumption. f_equal. lia.
    + apply String.eqb_neq in E. cbn [In]. rewrite IH. split.
      * intros [<- | (k & a & b & Ha & Hb & Hne & ->)].
        -- exists O, prev, row. repeat split; try assumption.
           f_equal. lia.
        -- exists (S k), a, b. repeat split; try assumption. f_equal. lia.
      * intros (k & a & b & Ha & Hb & Hne & ->).
        destruct k as [|k].
        -- simpl in Ha, Hb. injection Ha as <-. injection Hb as <-.
           left. f_equal. lia.
        -- right. exists k, a, b. repeat split; try assumption. f_equal. lia.
Qed.

Lemma changes_loop_length (rows : list Prediction) :
  forall i c, (List.length (changes_loop rows i c) <= List.length rows)%nat.
Proof.
  induction rows as [|row rest IH]; intros i c; simpl; [lia|].
  destruct c as [previous|].
  - destruct (negb (String.eqb (current_nakshatra row) previous)); simpl.
    + specialize (IH (i + 1)%Z (Some (current_nakshatra row))). lia.
    + specialize (IH (i + 1)%Z (Some previous)). lia.
  - specialize (IH (i + 1)%Z (Some (current_nakshatra row))). lia.
Qed.

(** X16: [find_nakshatra_changes] reports exactly the rows whose nakshatra
    differs from that of the row just before: one entry per such row, with
    the row's position, time label and nakshatra and the previous row's
    nakshatra.  The first row is never reported, so there are fewer entries
    than rows. *)
Theorem nakshatra_changes_spec (df : list Prediction) :
  (forall ch, In ch (find_nakshatra_changes df) <->
     exists k a b,
       nth_error df k = Some a /\ nth_error df (S k) = Some b /\
       current_nakshatra b <> current_nakshatra a /\
       ch = mkChange (Z.of_nat (S k)) (time_str b)
                     (current_nakshatra b) (current_nakshatra a)) /\
  (df <> [] ->
   (List.length (find_nakshatra_changes df) < List.length df)%nat) /\
  find_nakshatra_changes [] = [].
Proof.
  split; [|split; [|reflexivity]].
  - intros ch. unfold find_nakshatra_changes. destruct df as [|r0 rest].
    + simpl. split; [intros []|].
      intros (k & a & b & Ha & _). destruct k; discriminate Ha.
    + cbn [changes_loop]. rewrite changes_loop_spec. split.
      * intros (k & a & b & Ha & Hb & Hne & ->).
        exists k, a, b. repeat split; try assumption. f_equal. lia.
      * intros (k & a & b & Ha & Hb & Hne & ->).
        exists k, a, b. repeat split; try assumption. f_equal. lia.
  - intros Hne. unfold find_nakshatra_changes.
    destruct df as [|r0 rest]; [contradiction|]. cbn [changes_loop].
    pose proof (changes_loop_length rest (0 + 1)%Z
                  (Some (current_nakshatra r0))).
    cbn [List.length]. lia.
Qed.

(** ** Aggregations taken together *)

(** X17: risk and key periods agree: whenever [assess_session_risk] rates a
    sequence HIGH or MEDIUM, [identify_key_periods] reports a High
    Volatility window for it, since both count the records whose volatility
    exceeds 0.7. *)
Theorem risk_implies_high_volatility_window (records : list Prediction)
    (r : RiskAssessment)
    (Hr : assess_session_risk records = Ok r)
    (Hlevel : level r <> LOW) :
  exists k, In k (identify_key_periods records) /\
            kp_type k = "High Volatility"%string /\
            kp_periods k <> [].
Proof.
  unfold identify_key_periods.
  destruct (filter_cases (fun p => Qltb 0.7 (predicted_volatility p)) records)
    as [[Hnil Hv] | (xv & rv & Hcons & Hxv & Hfv)].
  - exfalso. unfold assess_session_risk in Hr. rewrite Hnil in Hr.
    unfold py_div in Hr.
    destruct (Qeq_bool (inject_Z (py_len records)) 0); [discriminate Hr|].
    cbn [bind] in Hr.
    assert (E : inject_Z (py_len (@nil Prediction)) / inject_Z (py_len records)
                == 0) by (unfold py_len; simpl; apply Qmult_0_l).
    assert (E3 : Qltb 0.3 (inject_Z (py_len (@nil Prediction))
                           / inject_Z (py_len records)) = false)
      by (apply Qltb_false; rewrite E; discriminate).
    assert (E15 : Qltb 0.15 (inject_Z (py_len (@nil Prediction))
                             / inject_Z (py_len records)) = false)
      by (apply Qltb_false; rewrite E; discriminate).
    rewrite E3, E15 in Hr. injection Hr as <-. apply Hlevel. reflexivity.
  - rewrite Hcons.
    destruct (filter (fun p => Direction_eqb (predicted_direction p) bullish
                               && Qltb 0.7 (combined_influence_score p)) records);
    destruct (filter (fun p => Direction_eqb (predicted_direction p) bearish
                               && Qltb 0.7 (combined_influence_score p)) records);
    (eexists; split; [cbn [app In]; left; reflexivity|]);
    (split; [reflexivity|]); cbn [kp_periods py_take firstn map]; discriminate.
Qed.

Lemma risk_implies_high_volatility_window_witness :
  exists k,
    In k (identify_key_periods
            [sample_record 0.9 bearish; sample_record 0.2 bullish]) /\
    kp_type k = "High Volatility"%string /\ kp_periods k <> [].
Proof.
  apply (risk_implies_high_volatility_window
           [sample_record 0.9 bearish; sample_record 0.2 bullish]
           (mkRisk HIGH "Reduce position sizing")).
  - reflexivity.
  - discriminate.
Defined.


(** ** Instances *)




Lemma key_events_conditions_witness :
  exists events,
    detect_key_events Ashwini (Dasha Rahu Mars 0.5 0.99) 0.2 = Ok events /\
    In "Bhukti change imminent"%string events /\
    In "Rahu-Mars combination - High volatility expected"%string events.
Proof.
  destruct (proj1 (key_events_conditions Ashwini Rahu Mars 0.5 0.99 0.2))
    as (events & Hev & _ & _ & H3 & H4 & _).
  exists events. split; [exact Hev|]. split.
  - apply H3. reflexivity.
  - apply H4. split; reflexivity.
Defined.

Lemma key_periods_windows_witness :
  exists k,
    In k (identify_key_periods
            [sample_record 0.9 bearish; sample_record 0.2 bullish]) /\
    kp_type k = "High Volatility"%string /\
    kp_periods k = ["09:15"%string].
Proof.
  destruct (key_periods_windows
              [sample_record 0.9 bearish; sample_record 0.2 bullish])
    as (_ & _ & Hper & Hhv & _).
  destruct (proj2 Hhv) as (k & Hk & Hty).
  - exists (sample_record 0.9 bearish). split; [now left | reflexivity].
  - exists k. split; [exact Hk|]. split; [exact Hty|].
    rewrite (Hper k Hk Hty). reflexivity.
Defined.

Lemma nakshatra_changes_spec_witness :
  (List.length (find_nakshatra_changes
                  [sample_record 0.9 bearish; sample_record 0.2 bullish])
   < 2)%nat.
Proof.
  apply (proj1 (proj2 (nakshatra_changes_spec
           [sample_record 0.9 bearish; sample_record 0.2 bullish]))).
  discriminate.
Defined.

Lemma trading_session_report_witness :
  exists r p,
    get_trading_session_predictions (fun _ => 100)
      (mk_datetime 2025 11 4 11 47) = Some (Ok r) /\
    nth_error (minute_predictions r) 0 = Some p /\
    time_str p = "09:15"%string.
Proof.
  destruct (trading_session_report (fun _ => 100) (mk_datetime 2025 11 4 11 47))
    as (r & Hr & Hlen & _ & H0 & _).
  destruct (minute_predictions r) as [|p rest] eqn:E; [discriminate Hlen|].
  exists r, p. split; [exact Hr|]. rewrite E. split; [reflexivity|].
  apply H0. reflexivity.
Defined.

Lemma session_cycle_state_constant_witness :
  exists r p,
    get_trading_session_predictions (fun _ => 100)
      (mk_datetime 2025 11 4 11 47) = Some (Ok r) /\
    nth_error (minute_predictions r) 375 = Some p /\
    mahadasha_lord p = Moon /\ bhukti_lord p = Ketu.
Proof.
  destruct (session_cycle_state_constant (fun _ => 100)
              (mk_datetime 2025 11 4 11 47))
    as (r & ml & bl & mp & bp & Hr & Hcall & Hall).
  destruct (session_records (fun _ => 100) (mk_datetime 2025 11 4 11 47))
    as (r' & Hr' & _ & _ & Hlen & _).
  rewrite Hr in Hr'. injection Hr' as <-.
  destruct (nth_error (minute_predictions r) 375) as [p|] eqn:E.
  - exists r, p. split; [exact Hr|]. split; [exact E|].
    destruct (Hall p (nth_error_In _ _ E)) as (-> & -> & _).
    vm_compute in Hcall. injection Hcall as <- <- _ _. split; reflexivity.
  - apply nth_error_None in E. rewrite Hlen in E. lia.
Defined.
